(** * Data_Cleaning: the polars cleaning pipeline of [cleaner.py]

    A shallow embedding of [DataCleaner] (src/cleaner.py).  The in-memory
    polars [DataFrame] is a list of rows; every cell is nullable and carries
    the dtype polars gave its column.  Each method of [DataCleaner] is a
    computation in a small state-and-exception monad over the cleaner's
    state: the data frame [self.df], the log written through [logger.info]
    and the files written by [write_csv].  The development starts from a
    constructed cleaner: [__init__] ([read_csv]) and the logging set-up are
    not part of it.

    What polars does is modelled as follows.
    - Text is [string] (8-bit characters) read as ASCII: the white space,
      case-mapping and [\w] classes below are the ASCII restrictions of
      the Unicode ones.
    - [Float64] is IEEE-754 binary64, through [SpecFloat]; comparisons and
      sorting use the total order of polars (NaN last, equal to itself).
    - Casts are strict.  How text is read as a number is left open: the
      methods take the two parsers as parameters.
    - [quantile] is called without [interpolation], hence with the default
      ["nearest"].
    - [unique] keeps one row of each class of equal rows; polars leaves the
      order of the survivors open, here it is the order of the frame. *)

From Stdlib Require Import ZArith List Bool Ascii String Lia Permutation Sorted.
From Stdlib Require Import Floats.SpecFloat.
Import ListNotations.

Local Open Scope Z_scope.

(* ================================================================== *)
(** ** Text: [str.strip_chars], [str.to_lowercase], [str.to_uppercase] *)

Module Text.

Definition chars := list ascii.

Definition code (c : ascii) : N := N_of_ascii c.

(** White space, as [strip_chars()] with no argument removes it:
    U+0009..U+000D and U+0020. *)
Definition is_space (c : ascii) : bool :=
  ((9 <=? code c) && (code c <=? 13) || (code c =? 32))%N.

Definition is_upper (c : ascii) : bool := ((65 <=? code c) && (code c <=? 90))%N.
Definition is_lower (c : ascii) : bool := ((97 <=? code c) && (code c <=? 122))%N.
Definition is_digit (c : ascii) : bool := ((48 <=? code c) && (code c <=? 57))%N.

(** [\w]: letters, digits and the underscore. *)
Definition is_word (c : ascii) : bool :=
  is_upper c || is_lower c || is_digit c || (code c =? 95)%N.

Definition lower_char (c : ascii) : ascii :=
  if is_upper c then ascii_of_N (code c + 32) else c.

Definition upper_char (c : ascii) : ascii :=
  if is_lower c then ascii_of_N (code c - 32) else c.

Fixpoint strip_start (l : chars) : chars :=
  match l with
  | c :: l' => if is_space c then strip_start l' else l
  | [] => []
  end.

Definition strip_end (l : chars) : chars := rev (strip_start (rev l)).


Definition strip_chars (s : string) : string :=
  string_of_list_ascii (strip_end (strip_start (list_ascii_of_string s))).

Definition to_lowercase (s : string) : string :=
  string_of_list_ascii (map lower_char (list_ascii_of_string s)).

Definition to_uppercase (s : string) : string :=
  string_of_list_ascii (map upper_char (list_ascii_of_string s)).

End Text.

(* ================================================================== *)
(** ** The email pattern: [str.contains(r"^[\w\.-]+@[\w\.-]+\.\w+$")] *)

Module Regex.

(** The fragment of regular expressions the pattern uses.  [Cls p] is a
    one-character class. *)
Inductive re : Type :=
| Void
| Eps
| Cls (p : ascii -> bool)
| Cat (r1 r2 : re)
| Alt (r1 r2 : re)
| Star (r : re).

Definition Plus (r : re) : re := Cat r (Star r).


Fixpoint nullable (r : re) : bool :=
  match r with
  | Void => false
  | Eps => true
  | Cls _ => false
  | Cat r1 r2 => nullable r1 && nullable r2
  | Alt r1 r2 => nullable r1 || nullable r2
  | Star _ => true
  end.

Fixpoint deriv (c : ascii) (r : re) : re :=
  match r with
  | Void => Void
  | Eps => Void
  | Cls p => if p c then Eps else Void
  | Cat r1 r2 =>
      if nullable r1 then Alt (Cat (deriv c r1) r2) (deriv c r2)
      else Cat (deriv c r1) r2
  | Alt r1 r2 => Alt (deriv c r1) (deriv c r2)
  | Star r1 => Cat (deriv c r1) (Star r1)
  end.

(** Anchored match of the whole text. *)
Fixpoint full_match (r : re) (l : list ascii) : bool :=
  match l with
  | [] => nullable r
  | c :: l' => full_match (deriv c r) l'
  end.

Definition is_char (a c : ascii) : bool := (N_of_ascii a =? N_of_ascii c)%N.

(** [[\w\.-]] *)
Definition local_char (c : ascii) : bool :=
  Text.is_word c || is_char "."%char c || is_char "-"%char c.

(** [^[\w\.-]+@[\w\.-]+\.\w+$].  Both anchors are present and the regex
    engine is not in multi-line mode, so [contains] holds exactly when the
    whole text matches. *)
Definition email_pattern : re :=
  Cat (Plus (Cls local_char))
    (Cat (Cls (is_char "@"%char))
       (Cat (Plus (Cls local_char))
          (Cat (Cls (is_char "."%char)) (Plus (Cls Text.is_word))))).

Definition str_contains_email (s : string) : bool :=
  full_match email_pattern (list_ascii_of_string s).

End Regex.

(* ================================================================== *)
(** ** [Float64]: IEEE-754 binary64 with polars' total order *)

Module F64.

Definition prec : Z := 53.
Definition emax : Z := 1024.

Definition t := spec_float.

Definition of_Z (z : Z) : t := binary_normalize prec emax z 0 false.
Definition add : t -> t -> t := SFadd prec emax.
Definition sub : t -> t -> t := SFsub prec emax.
Definition mul : t -> t -> t := SFmul prec emax.

(** [z / 2], for writing values such as [12.5]. *)
Definition halves (z : Z) : t := binary_normalize prec emax z (-1) false.

(** The literal [1.5]. *)
Definition one_and_half : t := halves 3.

Definition is_nan (x : t) : bool :=
  match x with S754_nan => true | _ => false end.

(** Comparisons of polars: every NaN equals every NaN and is greater than
    any other value; [-0.0] equals [0.0]. *)
Definition tot_le (x y : t) : bool :=
  if is_nan y then true else if is_nan x then false else SFleb x y.
Definition tot_ge (x y : t) : bool := tot_le y x.
Definition le (x y : t) : Prop := tot_le x y = true.
Definition tot_eq (x y : t) : bool :=
  if is_nan x then is_nan y else if is_nan y then false else SFeqb x y.

(** Truncation towards zero; [None] for NaN and the infinities. *)
Definition trunc (x : t) : option Z :=
  match x with
  | S754_zero _ => Some 0
  | S754_finite s m e =>
      let a := if 0 <=? e then Z.pos m * 2 ^ e else Z.pos m / 2 ^ (- e) in
      Some (if s then - a else a)
  | S754_infinity _ | S754_nan => None
  end.

(** Ascending sort by the total order (NaN last). *)
Fixpoint insert (x : t) (l : list t) : list t :=
  match l with
  | [] => [x]
  | y :: l' => if tot_le x y then x :: l else y :: insert x l'
  end.

Fixpoint sort (l : list t) : list t :=
  match l with
  | [] => []
  | x :: l' => insert x (sort l')
  end.

End F64.

(* ================================================================== *)
(** ** Cells, rows and the data frame *)

(** A value together with the dtype of its column. *)
Inductive value : Type :=
| VInt64 (z : Z)
| VInt32 (z : Z)
| VFloat64 (x : F64.t)
| VStr (s : string)
| VBool (b : bool).

(** A cell is a value or null. *)
Definition cell : Type := option value.

(** One row: the eight named columns the cleaner works on, and the cells of
    any further columns of the file. *)
Record Row : Type := mkRow {
  id : cell;
  first_name : cell;
  last_name : cell;
  email : cell;
  birth_year : cell;
  country : cell;
  gender : cell;
  income : cell;
  extra : list cell
}.

Definition DataFrame : Type := list Row.

Definition is_null (c : cell) : bool :=
  match c with None => true | Some _ => false end.

(** Equality of values as [unique] groups them. *)
Definition value_eqb (u v : value) : bool :=
  match u, v with
  | VInt64 a, VInt64 b => a =? b
  | VInt32 a, VInt32 b => a =? b
  | VFloat64 a, VFloat64 b => F64.tot_eq a b
  | VStr a, VStr b => String.eqb a b
  | VBool a, VBool b => Bool.eqb a b
  | _, _ => false
  end.

Definition cell_eqb (c d : cell) : bool :=
  match c, d with
  | None, None => true
  | Some u, Some v => value_eqb u v
  | _, _ => false
  end.

Fixpoint cells_eqb (l m : list cell) : bool :=
  match l, m with
  | [], [] => true
  | c :: l', d :: m' => cell_eqb c d && cells_eqb l' m'
  | _, _ => false
  end.

Definition row_eqb (r s : Row) : bool :=
  cell_eqb (id r) (id s) && cell_eqb (first_name r) (first_name s) &&
  cell_eqb (last_name r) (last_name s) && cell_eqb (email r) (email s) &&
  cell_eqb (birth_year r) (birth_year s) && cell_eqb (country r) (country s) &&
  cell_eqb (gender r) (gender s) && cell_eqb (income r) (income s) &&
  cells_eqb (extra r) (extra s).

(* ================================================================== *)
(** ** Exceptions and the cleaner's state *)

Inductive exn : Type :=
| DtypeError   (* a [.str] expression on a column that is not String *)
| CastError    (* a strict [cast] met a value it cannot convert *)
| TypeError    (* Python arithmetic on [None] *)
| WriteError.  (* [write_csv] could not write *)

Inductive result (A : Type) : Type :=
| Ok (a : A)
| Raise (e : exn).
Arguments Ok {A} a.
Arguments Raise {A} e.

(** What [logger.info] is called with, in the order of the calls. *)
Inductive msg : Type :=
| MsgPipelineStart
| MsgInitialSummary
| MsgRowCount (n : nat)
| MsgColumns
| MsgNullCounts (counts : list nat)  (* of the eight named columns *)
| MsgDropNulls
| MsgNullsRemoved (n : Z)
| MsgRemoveDuplicates
| MsgDuplicatesRemoved (n : Z)
| MsgCleanNames
| MsgCleanEmail
| MsgEmailsRemoved (n : Z)
| MsgCleanBirthYear
| MsgBirthYearsRemoved (n : Z)
| MsgCleanIncome
| MsgOutliersRemoved (n : Z)
| MsgCountryGender
| MsgGendersRemoved (n : Z)
| MsgSave (path : string)
| MsgSaved
| MsgPipelineDone.

(** The state a [DataCleaner] acts on.  [files] maps a path to the table
    last written there by [write_csv]; [writable] tells which paths can be
    written. *)
Record State : Type := mkState {
  df : DataFrame;
  log : list msg;
  files : string -> option DataFrame;
  writable : string -> bool
}.

(** Computations that read and update the state and may raise; what was
    done before the exception stays done. *)
Definition M (A : Type) : Type := State -> result A * State.

Definition ret {A} (a : A) : M A := fun st => (Ok a, st).

Definition bind {A B} (m : M A) (k : A -> M B) : M B :=
  fun st =>
    match m st with
    | (Ok a, st') => k a st'
    | (Raise e, st') => (Raise e, st')
    end.

Definition raise {A} (e : exn) : M A := fun st => (Raise e, st).

Declare Scope monad_scope.
Delimit Scope monad_scope with monad.
Notation "x <- m ;; k" := (bind m (fun x => k))
  (at level 61, m at next level, right associativity) : monad_scope.
Notation "m ;; k" := (bind m (fun _ => k))
  (at level 61, right associativity) : monad_scope.
Local Open Scope monad_scope.

Definition logger_info (m : msg) : M unit :=
  fun st => (Ok tt, mkState (df st) (log st ++ [m]) (files st) (writable st)).

Definition get_df : M DataFrame := fun st => (Ok (df st), st).

Definition set_df (t : DataFrame) : M unit :=
  fun st => (Ok tt, mkState t (log st) (files st) (writable st)).

(** Lift the outcome of a polars expression. *)
Definition lift {A} (r : result A) : M A := fun st => (r, st).

(** [files] after writing [t] at [path]. *)
Definition written (path : string) (t : DataFrame)
           (fs : string -> option DataFrame) : string -> option DataFrame :=
  fun p => if String.eqb p path then Some t else fs p.

Definition write_csv (path : string) : M unit :=
  fun st =>
    if writable st path
    then (Ok tt, mkState (df st) (log st) (written path (df st) (files st))
                   (writable st))
    else (Raise WriteError, st).

(** [shape[0]] *)
Definition height (t : DataFrame) : nat := List.length t.

Definition removed (before after : nat) : Z := Z.of_nat before - Z.of_nat after.

(* ================================================================== *)
(** ** polars expressions used by the cleaner *)

Definition rbind {A B} (r : result A) (k : A -> result B) : result B :=
  match r with
  | Ok a => k a
  | Raise e => Raise e
  end.

(** [with_columns]: every row is rewritten, the first failure is raised. *)
Fixpoint with_columns (f : Row -> result Row) (t : DataFrame) : result DataFrame :=
  match t with
  | [] => Ok []
  | r :: t' =>
      rbind (f r) (fun r' =>
      rbind (with_columns f t') (fun t'' => Ok (r' :: t'')))
  end.

(** [filter] with a predicate whose evaluation may fail. *)
Fixpoint filter_rows (p : Row -> result bool) (t : DataFrame) : result DataFrame :=
  match t with
  | [] => Ok []
  | r :: t' =>
      rbind (p r) (fun b =>
      rbind (filter_rows p t') (fun t'' => Ok (if b then r :: t'' else t'')))
  end.

(** A [.str] expression: defined on String cells, null stays null. *)
Definition str_expr {A} (f : string -> A) (c : cell) : result (option A) :=
  match c with
  | None => Ok None
  | Some (VStr s) => Ok (Some (f s))
  | Some _ => Raise DtypeError
  end.

Definition str_map (f : string -> string) (c : cell) : result cell :=
  rbind (str_expr f c) (fun o => Ok (option_map VStr o)).

(** A null predicate value drops the row. *)
Definition keep (o : option bool) : bool :=
  match o with Some b => b | None => false end.

Definition in_int32 (z : Z) : bool := (- 2 ^ 31 <=? z) && (z <=? 2 ^ 31 - 1).

Definition checked_int32 (o : option Z) : option Z :=
  match o with
  | Some z => if in_int32 z then Some z else None
  | None => None
  end.

(** [unique()]: one row of every class of equal rows.  polars does not fix
    the order of the survivors; here the first of each class stays, in the
    order of the frame. *)
Fixpoint unique (t : DataFrame) : DataFrame :=
  match t with
  | [] => []
  | r :: t' => r :: filter (fun s => negb (row_eqb r s)) (unique t')
  end.

(** The non-null values of a Float64 column. *)
Fixpoint float_values (col : list cell) : list F64.t :=
  match col with
  | [] => []
  | Some (VFloat64 x) :: col' => x :: float_values col'
  | _ :: col' => float_values col'
  end.

(** Index of the quantile [k/4] among [n] sorted values under the default
    [interpolation="nearest"]: [(n - 1) * k / 4] rounded to the nearest
    integer, halves upwards. *)
Definition nearest_idx (n k : Z) : Z := ((n - 1) * k + 2) / 4.

(** [quantile(k/4)] as the cleaner calls it, without an [interpolation]
    argument: null when the column has no value, else the order statistic at
    [nearest_idx]. *)
Definition quantile (col : list cell) (k : Z) : option F64.t :=
  let vals := float_values col in
  nth_error (F64.sort vals)
            (Z.to_nat (nearest_idx (Z.of_nat (List.length vals)) k)).

(** The quantile [k/4] by linear interpolation between the two order
    statistics around position [(n - 1) * k / 4], as the specification
    words it ([interpolation="linear"] in polars). *)
Definition quantile_linear (col : list cell) (k : Z) : option F64.t :=
  let vals := F64.sort (float_values col) in
  let n := Z.of_nat (List.length vals) in
  let base := (n - 1) * k / 4 in
  let top := Z.min ((n - 1) * k / 4 + (if (n - 1) * k mod 4 =? 0 then 0 else 1)) (n - 1) in
  match nth_error vals (Z.to_nat base), nth_error vals (Z.to_nat top) with
  | Some lower, Some upper =>
      if (base =? top) || F64.tot_eq lower upper then Some lower
      else
        let float_idx := binary_normalize F64.prec F64.emax ((n - 1) * k) (-2) false in
        let proportion := F64.sub float_idx (F64.of_Z base) in
        Some (F64.add (F64.mul proportion (F64.sub upper lower)) lower)
  | _, _ => None
  end.

(** [valid_genders] *)
Definition valid_genders : list string := ["male"; "female"; "other"]%string.

Definition is_in (l : list string) (s : string) : bool :=
  existsb (String.eqb s) l.

(* ================================================================== *)
(** ** The methods of [DataCleaner] *)

Section DataCleaner.

(** Text to number as the strict casts of polars read it; [None] where
    the text is not a number of the target type. *)
Variable parse_int : string -> option Z.
Variable parse_float : string -> option F64.t.

(** [cast(pl.Int32)], strict. *)
Definition cast_int32 (v : value) : option Z :=
  match v with
  | VInt64 z | VInt32 z => checked_int32 (Some z)
  | VFloat64 x => checked_int32 (F64.trunc x)
  | VStr s => checked_int32 (parse_int s)
  | VBool b => Some (if b then 1 else 0)
  end.

(** [cast(pl.Float64)], strict. *)
Definition cast_float64 (v : value) : option F64.t :=
  match v with
  | VInt64 z | VInt32 z => Some (F64.of_Z z)
  | VFloat64 x => Some x
  | VStr s => parse_float s
  | VBool b => Some (F64.of_Z (if b then 1 else 0))
  end.

Definition cast_cell (to : value -> option value) (c : cell) : result cell :=
  match c with
  | None => Ok None
  | Some v =>
      match to v with
      | Some v' => Ok (Some v')
      | None => Raise CastError
      end
  end.

Definition null_count (col : Row -> cell) (t : DataFrame) : nat :=
  List.length (filter (fun r => is_null (col r)) t).

Definition initial_summary : M unit :=
  logger_info MsgInitialSummary ;;
  t <- get_df ;;
  logger_info (MsgRowCount (height t)) ;;
  logger_info MsgColumns ;;
  logger_info (MsgNullCounts
    (map (fun col => null_count col t)
         [id; first_name; last_name; email; birth_year; country; gender; income])).

Definition remove_duplicates : M unit :=
  logger_info MsgRemoveDuplicates ;;
  t <- get_df ;;
  let before := height t in
  set_df (unique t) ;;
  t' <- get_df ;;
  let after := height t' in
  logger_info (MsgDuplicatesRemoved (removed before after)).

Definition normalize_name (s : string) : string :=
  Text.to_lowercase (Text.strip_chars s).

Definition clean_names_row (r : Row) : result Row :=
  rbind (str_map normalize_name (first_name r)) (fun fn =>
  rbind (str_map normalize_name (last_name r)) (fun ln =>
  Ok (mkRow (id r) fn ln (email r) (birth_year r) (country r) (gender r)
            (income r) (extra r)))).

Definition clean_names : M unit :=
  logger_info MsgCleanNames ;;
  t <- get_df ;;
  t' <- lift (with_columns clean_names_row t) ;;
  set_df t'.

Definition email_ok (r : Row) : result bool :=
  rbind (str_expr Regex.str_contains_email (email r)) (fun o => Ok (keep o)).

Definition clean_email : M unit :=
  logger_info MsgCleanEmail ;;
  t <- get_df ;;
  let before := height t in
  t' <- lift (filter_rows email_ok t) ;;
  set_df t' ;;
  let after := height t' in
  logger_info (MsgEmailsRemoved (removed before after)).

Definition cast_birth_year (r : Row) : result Row :=
  rbind (cast_cell (fun v => option_map VInt32 (cast_int32 v)) (birth_year r))
    (fun b =>
  Ok (mkRow (id r) (first_name r) (last_name r) (email r) b (country r)
            (gender r) (income r) (extra r))).

Definition birth_year_ok (min_year max_year : Z) (r : Row) : bool :=
  match birth_year r with
  | Some (VInt32 y) => (min_year <=? y) && (y <=? max_year)
  | _ => false
  end.

Definition clean_birth_year (min_year max_year : Z) : M unit :=
  logger_info MsgCleanBirthYear ;;
  t <- get_df ;;
  t1 <- lift (with_columns cast_birth_year t) ;;
  set_df t1 ;;
  let before := height t1 in
  let t2 := filter (birth_year_ok min_year max_year) t1 in
  set_df t2 ;;
  let after := height t2 in
  logger_info (MsgBirthYearsRemoved (removed before after)).

Definition cast_income (r : Row) : result Row :=
  rbind (cast_cell (fun v => option_map VFloat64 (cast_float64 v)) (income r))
    (fun i =>
  Ok (mkRow (id r) (first_name r) (last_name r) (email r) (birth_year r)
            (country r) (gender r) i (extra r))).

(** [lower_bound] and [upper_bound]; subtracting [None] raises. *)
Definition income_bounds (t : DataFrame) : result (F64.t * F64.t) :=
  let col := map income t in
  match quantile col 1, quantile col 3 with
  | Some q1, Some q3 =>
      let iqr := F64.sub q3 q1 in
      let lower_bound := F64.sub q1 (F64.mul F64.one_and_half iqr) in
      let upper_bound := F64.add q3 (F64.mul F64.one_and_half iqr) in
      Ok (lower_bound, upper_bound)
  | _, _ => Raise TypeError
  end.

Definition income_ok (bounds : F64.t * F64.t) (r : Row) : bool :=
  match income r with
  | Some (VFloat64 x) => F64.tot_ge x (fst bounds) && F64.tot_le x (snd bounds)
  | _ => false
  end.

Definition clean_income : M unit :=
  logger_info MsgCleanIncome ;;
  t <- get_df ;;
  t1 <- lift (with_columns cast_income t) ;;
  set_df t1 ;;
  bounds <- lift (income_bounds t1) ;;
  let before := height t1 in
  let t2 := filter (income_ok bounds) t1 in
  set_df t2 ;;
  let after := height t2 in
  logger_info (MsgOutliersRemoved (removed before after)).

Definition normalize_country (s : string) : string :=
  Text.to_uppercase (Text.strip_chars s).

Definition normalize_gender (s : string) : string :=
  Text.to_lowercase (Text.strip_chars s).

Definition standardize_row (r : Row) : result Row :=
  rbind (str_map normalize_country (country r)) (fun c =>
  rbind (str_map normalize_gender (gender r)) (fun g =>
  Ok (mkRow (id r) (first_name r) (last_name r) (email r) (birth_year r) c g
            (income r) (extra r)))).

Definition gender_ok (r : Row) : bool :=
  match gender r with
  | Some (VStr s) => is_in valid_genders s
  | _ => false
  end.

Definition standardize_country_gender : M unit :=
  logger_info MsgCountryGender ;;
  t <- get_df ;;
  t1 <- lift (with_columns standardize_row t) ;;
  set_df t1 ;;
  let before := height t1 in
  let t2 := filter gender_ok t1 in
  set_df t2 ;;
  let after := height t2 in
  logger_info (MsgGendersRemoved (removed before after)).

Definition has_null (r : Row) : bool :=
  existsb is_null
    [id r; first_name r; last_name r; email r; birth_year r; country r;
     gender r; income r].

Definition drop_nulls : M unit :=
  logger_info MsgDropNulls ;;
  t <- get_df ;;
  let before := height t in
  let t' := filter (fun r => negb (has_null r)) t in
  set_df t' ;;
  let after := height t' in
  logger_info (MsgNullsRemoved (removed before after)).

Definition default_output_path : string := "cleaned_data.csv".

Definition save (output_path : string) : M unit :=
  logger_info (MsgSave output_path) ;;
  write_csv output_path ;;
  logger_info MsgSaved.

Definition run_cleaning_pipeline : M unit :=
  logger_info MsgPipelineStart ;;
  initial_summary ;;
  drop_nulls ;;
  remove_duplicates ;;
  clean_names ;;
  clean_email ;;
  clean_birth_year 1900 2025 ;;
  clean_income ;;
  standardize_country_gender ;;
  save default_output_path ;;
  logger_info MsgPipelineDone.

End DataCleaner.

(* ================================================================== *)
(** ** A concrete reading of numeric text, for running examples *)

Module Decimal.

Fixpoint digits (acc : Z) (l : list ascii) : option Z :=
  match l with
  | [] => Some acc
  | c :: l' =>
      if Text.is_digit c
      then digits (10 * acc + (Z.of_N (Text.code c) - 48)) l'
      else None
  end.

(** An optional minus sign and at least one decimal digit. *)
Definition parse_int (s : string) : option Z :=
  match list_ascii_of_string s with
  | [] => None
  | c :: l =>
      if Regex.is_char "-"%char c
      then match l with
           | [] => None
           | _ => option_map Z.opp (digits 0 l)
           end
      else digits 0 (c :: l)
  end.

(** Integral text only. *)
Definition parse_float (s : string) : option F64.t :=
  option_map F64.of_Z (parse_int s).

Definition run : M unit := run_cleaning_pipeline parse_int parse_float.

(** A freshly constructed cleaner holding [t]: nothing logged, nothing
    written, every path writable. *)
Definition fresh (t : DataFrame) : State :=
  mkState t [] (fun _ => None) (fun _ => true).

(** A row as [read_csv] yields it for a file of the eight columns with an
    Int64 [id], [birth_year] and [income]. *)
Definition csv_row (i : Z) (fn ln em : string) (by_ : Z) (co ge : string)
           (inc : Z) : Row :=
  mkRow (Some (VInt64 i)) (Some (VStr fn)) (Some (VStr ln)) (Some (VStr em))
        (Some (VInt64 by_)) (Some (VStr co)) (Some (VStr ge))
        (Some (VInt64 inc)) [].

Definition clean_row (i inc : Z) : Row :=
  csv_row i "a" "b" "a@b.com" 1990 "us" "male" inc.

(** The row of the specification's first scenario. *)
Definition ann : Row :=
  csv_row 1 " Ann " "SMITH" "a@b.com" 1990 "us" "Female" 50000.

(** The incomes of the specification's outlier scenario. *)
Definition seven_incomes : DataFrame :=
  [clean_row 1 10; clean_row 2 12; clean_row 3 13; clean_row 4 14;
   clean_row 5 15; clean_row 6 16; clean_row 7 1000000].


(** Two rows that differ only in how the first name is written. *)
Definition two_anns : DataFrame :=
  [csv_row 1 " Ann " "SMITH" "a@b.com" 1990 "us" "Female" 50000;
   csv_row 1 "ann" "SMITH" "a@b.com" 1990 "us" "Female" 50000].

(** A String [birth_year] column with a value that is no number. *)
Definition bad_year : DataFrame :=
  [mkRow (Some (VInt64 1)) (Some (VStr "a")) (Some (VStr "b"))
         (Some (VStr "a@b.com")) (Some (VStr "abc")) (Some (VStr "us"))
         (Some (VStr "male")) (Some (VInt64 10)) []].

(** A String [income] column with a value that is no number. *)
Definition bad_income : DataFrame :=
  [mkRow (Some (VInt64 1)) (Some (VStr "a")) (Some (VStr "b"))
         (Some (VStr "a@b.com")) (Some (VInt64 1990)) (Some (VStr "us"))
         (Some (VStr "male")) (Some (VStr "n/a")) []].


(** A frame whose only row has a gender outside [valid_genders]. *)
Definition unknown_gender : DataFrame :=
  [csv_row 1 "a" "b" "a@b.com" 1990 "us" "unknown" 10].

End Decimal.

(* ================================================================== *)
(** ** The data frame after each method *)

Section Frames.

Variable parse_int : string -> option Z.
Variable parse_float : string -> option F64.t.

Definition drop_nulls_df (t : DataFrame) : DataFrame :=
  filter (fun r => negb (has_null r)) t.

Definition clean_names_df : DataFrame -> result DataFrame :=
  with_columns clean_names_row.

Definition clean_email_df : DataFrame -> result DataFrame :=
  filter_rows email_ok.

Definition clean_birth_year_df (min_year max_year : Z) (t : DataFrame)
  : result DataFrame :=
  rbind (with_columns (cast_birth_year parse_int) t) (fun t1 =>
  Ok (filter (birth_year_ok min_year max_year) t1)).

Definition clean_income_df (t : DataFrame) : result DataFrame :=
  rbind (with_columns (cast_income parse_float) t) (fun t1 =>
  rbind (income_bounds t1) (fun bounds =>
  Ok (filter (income_ok bounds) t1))).

Definition standardize_df (t : DataFrame) : result DataFrame :=
  rbind (with_columns standardize_row t) (fun t1 =>
  Ok (filter gender_ok t1)).

(** The frame [clean_birth_year] starts from in the pipeline. *)
Definition before_birth_year (t : DataFrame) : result DataFrame :=
  rbind (clean_names_df (unique (drop_nulls_df t))) clean_email_df.

(** The frame [clean_income] starts from in the pipeline. *)
Definition before_income (t : DataFrame) : result DataFrame :=
  rbind (before_birth_year t) (clean_birth_year_df 1900 2025).

(** The frame whose [income] column the quartiles are taken over: the
    one [clean_income] starts from, cast to Float64. *)
Definition income_frame (t : DataFrame) : result DataFrame :=
  rbind (before_income t) (with_columns (cast_income parse_float)).

(** The bounds [clean_income] computes in the pipeline. *)
Definition pipeline_bounds (t : DataFrame) : result (F64.t * F64.t) :=
  rbind (income_frame t) income_bounds.

(** The frame [save] writes. *)
Definition cleaned_df (t : DataFrame) : result DataFrame :=
  rbind (rbind (before_income t) clean_income_df) standardize_df.

End Frames.

(** The fence the specification describes, from interpolated quartiles. *)
Definition income_bounds_linear (t : DataFrame) : result (F64.t * F64.t) :=
  let col := map income t in
  match quantile_linear col 1, quantile_linear col 3 with
  | Some q1, Some q3 =>
      let iqr := F64.sub q3 q1 in
      Ok (F64.sub q1 (F64.mul F64.one_and_half iqr),
          F64.add q3 (F64.mul F64.one_and_half iqr))
  | _, _ => Raise TypeError
  end.

(** No two rows of the frame are equal on all columns. *)
Definition distinct_rows (t : DataFrame) : Prop :=
  ForallOrdPairs (fun r s => row_eqb r s = false) t.

(** A filter predicate that evaluated to true. *)
Definition holds (b : result bool) : bool :=
  match b with Ok true => true | _ => false end.

(** The messages that open a method. *)
Definition is_banner (m : msg) : bool :=
  match m with
  | MsgPipelineStart | MsgInitialSummary | MsgDropNulls | MsgRemoveDuplicates
  | MsgCleanNames | MsgCleanEmail | MsgCleanBirthYear | MsgCleanIncome
  | MsgCountryGender | MsgSave _ | MsgPipelineDone => true
  | _ => false
  end.

Definition banners (l : list msg) : list msg := filter is_banner l.


(** Every one of the eight required cells holds a value. *)
Definition no_nulls (r : Row) : Prop :=
  id r <> None /\ first_name r <> None /\ last_name r <> None /\
  email r <> None /\ birth_year r <> None /\ country r <> None /\
  gender r <> None /\ income r <> None.

(** A Float64 cell inside the closed interval [bounds]. *)
Definition within (bounds : F64.t * F64.t) (c : cell) : Prop :=
  exists x, c = Some (VFloat64 x) /\
            F64.tot_le (fst bounds) x = true /\ F64.tot_le x (snd bounds) = true.




(* ================================================================== *)
(** ** Further vocabulary for the single methods *)

(** A cell a [.str] expression accepts: text or null. *)
Definition text_or_null (c : cell) : bool :=
  match c with
  | None | Some (VStr _) => true
  | Some _ => false
  end.

(** A cell a strict cast accepts: null, or a value the cast converts. *)
Definition castable {A : Type} (to : value -> option A) (c : cell) : bool :=
  match c with
  | None => true
  | Some v => match to v with Some _ => true | None => false end
  end.




(** A Float64 that is a number: neither NaN nor an infinity. *)
Definition finite (x : F64.t) : bool :=
  match x with
  | S754_zero _ | S754_finite _ _ _ => true
  | S754_infinity _ | S754_nan => false
  end.

(** The number a removal message reports; 0 for the other messages. *)
Definition removed_by (m : msg) : Z :=
  match m with
  | MsgNullsRemoved n | MsgDuplicatesRemoved n | MsgEmailsRemoved n
  | MsgBirthYearsRemoved n | MsgOutliersRemoved n | MsgGendersRemoved n => n
  | _ => 0
  end.

(** The rows the removal messages of a log account for. *)
Fixpoint removed_total (l : list msg) : Z :=
  match l with
  | [] => 0
  | m :: l' => removed_by m + removed_total l'
  end.

(** The null counts [initial_summary] reports. *)
Definition null_counts (t : DataFrame) : list nat :=
  map (fun col => null_count col t)
      [id; first_name; last_name; email; birth_year; country; gender; income].

(** Two rows with the same [id], [email] and further columns: the cells no
    method writes to. *)
Definition same_untouched (r r' : Row) : Prop :=
  id r' = id r /\ email r' = email r /\ extra r' = extra r.

(* ================================================================== *)
(** * Properties *)

(** ** Text *)

Module TextFacts.
Import Text.





















End TextFacts.

(** ** The pattern matcher decides the language of the pattern *)

Module RegexFacts.
Import Regex.






End RegexFacts.

(** ** The total order on [Float64] and the sort *)

Module F64Facts.
Import F64.

Lemma SFcompare_swap x y c :
  SFcompare x y = Some c -> SFcompare y x = Some (CompOpp c).
Proof.
  destruct x as [sx|sx| |sx mx ex], y as [sy|sy| |sy my ey]; simpl;
    try discriminate;
    try (intros H; injection H as <-;
         repeat match goal with b : bool |- _ => destruct b end;
         reflexivity).
  intros H; injection H as <-. f_equal.
  rewrite (Z.compare_antisym ex ey).
  assert (Hm : PosDef.Pos.compare_cont Eq my mx =
               CompOpp (PosDef.Pos.compare_cont Eq mx my))
    by (symmetry; exact (Pos.compare_cont_antisym mx my Eq)).
  rewrite Hm.
  destruct sx, sy, (ex ?= ey); simpl; reflexivity.
Qed.

Lemma tot_le_total x y : tot_le x y = false -> tot_le y x = true.
Proof.
  unfold tot_le, SFleb.
  destruct (is_nan y) eqn:Hy; [discriminate|].
  destruct (is_nan x) eqn:Hx; [reflexivity|].
  destruct (SFcompare x y) as [c|] eqn:Hc.
  - rewrite (SFcompare_swap _ _ _ Hc). now destruct c.
  - destruct x, y; simpl in *; discriminate.
Qed.

Lemma tot_eq_refl x : tot_eq x x = true.
Proof.
  unfold tot_eq, SFeqb.
  destruct x as [s|s| |s m e]; simpl; try reflexivity.
  - now destruct s.
  - rewrite Z.compare_refl, Pos.compare_cont_refl. now destruct s.
Qed.

Lemma tot_eq_inv x y :
  tot_eq x y = true ->
  x = y \/ exists s s', x = S754_zero s /\ y = S754_zero s'.
Proof.
  unfold tot_eq, SFeqb.
  destruct x as [sx|sx| |sx mx ex], y as [sy|sy| |sy my ey]; simpl;
    try discriminate; try (now left);
    try (destruct sx; discriminate); try (destruct sy; discriminate).
  - intros _. right. now exists sx, sy.
  - destruct sx, sy; try discriminate; now left.
  - assert (Hm : PosDef.Pos.compare_cont Eq mx my = (mx ?= my)%positive)
      by reflexivity.
    rewrite Hm.
    destruct sx, sy; try discriminate;
      destruct (ex ?= ey) eqn:He; try discriminate;
      destruct (mx ?= my)%positive eqn:Hp; try discriminate;
      apply Z.compare_eq_iff in He; apply Pos.compare_eq_iff in Hp;
      subst; now left.
Qed.

Lemma tot_eq_sym x y : tot_eq x y = true -> tot_eq y x = true.
Proof.
  intros H. destruct (tot_eq_inv _ _ H) as [->|(s & s' & -> & ->)];
    [apply tot_eq_refl | reflexivity].
Qed.

Lemma tot_eq_trans x y z :
  tot_eq x y = true -> tot_eq y z = true -> tot_eq x z = true.
Proof.
  intros H1 H2.
  destruct (tot_eq_inv _ _ H1) as [->|(s & s' & -> & ->)]; [exact H2|].
  destruct (tot_eq_inv _ _ H2) as [<-|(s1 & s2 & _ & ->)]; reflexivity.
Qed.

Lemma insert_perm x l : Permutation (insert x l) (x :: l).
Proof.
  induction l as [|y l IH]; simpl; [reflexivity|].
  destruct (tot_le x y); [reflexivity|].
  rewrite IH. apply perm_swap.
Qed.

Lemma sort_perm l : Permutation (sort l) l.
Proof.
  induction l as [|x l IH]; simpl; [reflexivity|].
  rewrite insert_perm. now constructor.
Qed.

Lemma insert_sorted x l : Sorted le l -> Sorted le (insert x l).
Proof.
  induction 1 as [|y l Hs IH Hd]; simpl.
  - repeat constructor.
  - destruct (tot_le x y) eqn:E.
    + constructor; [now constructor | now constructor].
    + constructor; [exact IH|].
      destruct l as [|z l]; simpl.
      * constructor. now apply tot_le_total.
      * inversion Hd; subst.
        destruct (tot_le x z); constructor;
          [now apply tot_le_total | assumption].
Qed.

Lemma sort_sorted l : Sorted le (sort l).
Proof.
  induction l as [|x l IH]; simpl; [constructor | now apply insert_sorted].
Qed.

End F64Facts.

(** ** Rows and frames *)

Lemma value_eqb_refl v : value_eqb v v = true.
Proof.
  destruct v; simpl.
  - apply Z.eqb_refl.
  - apply Z.eqb_refl.
  - apply F64Facts.tot_eq_refl.
  - apply String.eqb_refl.
  - now destruct b.
Qed.

Lemma cell_eqb_refl c : cell_eqb c c = true.
Proof. destruct c; simpl; [apply value_eqb_refl | reflexivity]. Qed.

Lemma cells_eqb_refl l : cells_eqb l l = true.
Proof.
  induction l as [|c l IH]; simpl; [reflexivity|].
  now rewrite cell_eqb_refl.
Qed.

Lemma row_eqb_refl r : row_eqb r r = true.
Proof.
  unfold row_eqb. now rewrite !cell_eqb_refl, cells_eqb_refl.
Qed.

Lemma with_columns_Forall2 f t t' :
  with_columns f t = Ok t' -> Forall2 (fun r r' => f r = Ok r') t t'.
Proof.
  revert t'. induction t as [|r t IH]; simpl; intros t' H.
  - injection H as <-. constructor.
  - destruct (f r) as [r'|] eqn:Hr; simpl in H; [|discriminate].
    destruct (with_columns f t) as [t''|]; simpl in H; [|discriminate].
    injection H as <-. constructor; [exact Hr | now apply IH].
Qed.

Lemma with_columns_length f t t' :
  with_columns f t = Ok t' -> List.length t' = List.length t.
Proof.
  intros H. symmetry. exact (Forall2_length (with_columns_Forall2 _ _ _ H)).
Qed.

Lemma with_columns_In f t t' r' :
  with_columns f t = Ok t' -> In r' t' -> exists r, In r t /\ f r = Ok r'.
Proof.
  intros H. apply with_columns_Forall2 in H.
  induction H as [|r s t t' Hr _ IH]; simpl; [tauto|].
  intros [<-|Hin].
  - exists r. now split; [left|].
  - destruct (IH Hin) as (r0 & H0 & H1). exists r0. now split; [right|].
Qed.

Lemma with_columns_id f t :
  (forall r, In r t -> f r = Ok r) -> with_columns f t = Ok t.
Proof.
  induction t as [|r t IH]; simpl; intros H; [reflexivity|].
  rewrite (H r) by now left. simpl.
  rewrite IH by (intros; apply H; now right). reflexivity.
Qed.

(** [with_columns] raises as soon as one row does. *)
Lemma with_columns_raise f t e :
  (forall r e', f r = Raise e' -> e' = e) ->
  (exists r, In r t /\ f r = Raise e) ->
  with_columns f t = Raise e.
Proof.
  intros Hf (r & Hin & Hr).
  induction t as [|r0 t IH]; simpl; [destruct Hin|].
  destruct (f r0) as [r0'|e0] eqn:H0; simpl.
  - destruct Hin as [->|Hin]; [congruence|].
    now rewrite IH.
  - now rewrite (Hf _ _ H0).
Qed.

Lemma filter_rows_ok p t t' :
  filter_rows p t = Ok t' -> t' = filter (fun r => holds (p r)) t.
Proof.
  revert t'. induction t as [|r t IH]; simpl; intros t' H.
  - now injection H as <-.
  - destruct (p r) as [b|]; simpl in H; [|discriminate].
    destruct (filter_rows p t) as [t''|]; simpl in H; [|discriminate].
    injection H as <-. rewrite (IH t'' eq_refl). now destruct b.
Qed.


Lemma filter_all {A} (p : A -> bool) l :
  (forall x, In x l -> p x = true) -> filter p l = l.
Proof.
  induction l as [|x l IH]; simpl; intros H; [reflexivity|].
  rewrite (H x) by now left. f_equal. apply IH. intros; apply H; now right.
Qed.

Lemma filter_length_le {A} (p : A -> bool) l :
  (List.length (filter p l) <= List.length l)%nat.
Proof.
  induction l as [|x l IH]; simpl; [lia|]. destruct (p x); simpl; lia.
Qed.

Lemma unique_incl t r : In r (unique t) -> In r t.
Proof.
  revert r. induction t as [|r0 t IH]; simpl; intros r; [tauto|].
  intros [->|H]; [now left|]. right. apply IH.
  now apply filter_In in H.
Qed.

Lemma unique_length_le t : (List.length (unique t) <= List.length t)%nat.
Proof.
  induction t as [|r t IH]; simpl; [lia|].
  pose proof (filter_length_le (fun s => negb (row_eqb r s)) (unique t)). lia.
Qed.

Lemma distinct_rows_filter p t : distinct_rows t -> distinct_rows (filter p t).
Proof.
  unfold distinct_rows. induction 1 as [|r t Hr _ IH]; simpl.
  - constructor.
  - destruct (p r); [|exact IH]. constructor; [|exact IH].
    rewrite Forall_forall in *. intros s Hs. apply Hr.
    now apply filter_In in Hs.
Qed.

Lemma unique_distinct t : distinct_rows (unique t).
Proof.
  induction t as [|r t IH]; simpl; [constructor|].
  constructor.
  - rewrite Forall_forall. intros s Hs. apply filter_In in Hs.
    destruct Hs as [_ Hs]. now apply negb_true_iff in Hs.
  - now apply distinct_rows_filter.
Qed.

Lemma value_eqb_sym u v : value_eqb u v = true -> value_eqb v u = true.
Proof.
  destruct u, v; simpl; try discriminate.
  - now rewrite Z.eqb_sym.
  - now rewrite Z.eqb_sym.
  - apply F64Facts.tot_eq_sym.
  - now rewrite String.eqb_sym.
  - now destruct b, b0.
Qed.

Lemma value_eqb_trans u v w :
  value_eqb u v = true -> value_eqb v w = true -> value_eqb u w = true.
Proof.
  destruct u, v, w; simpl; try discriminate.
  - rewrite !Z.eqb_eq. congruence.
  - rewrite !Z.eqb_eq. congruence.
  - apply F64Facts.tot_eq_trans.
  - rewrite !String.eqb_eq. congruence.
  - now destruct b, b0, b1.
Qed.

Lemma cell_eqb_sym c d : cell_eqb c d = true -> cell_eqb d c = true.
Proof.
  destruct c, d; simpl; try discriminate; [apply value_eqb_sym | reflexivity].
Qed.

Lemma cell_eqb_trans c d e :
  cell_eqb c d = true -> cell_eqb d e = true -> cell_eqb c e = true.
Proof.
  destruct c, d, e; simpl; try discriminate;
    [apply value_eqb_trans | reflexivity].
Qed.

Lemma cells_eqb_sym l : forall m, cells_eqb l m = true -> cells_eqb m l = true.
Proof.
  induction l as [|c l IH]; intros [|d m]; simpl; try discriminate;
    [reflexivity|].
  rewrite !andb_true_iff. intros [H1 H2].
  split; [now apply cell_eqb_sym | now apply IH].
Qed.

Lemma cells_eqb_trans l :
  forall m n, cells_eqb l m = true -> cells_eqb m n = true ->
              cells_eqb l n = true.
Proof.
  induction l as [|c l IH]; intros [|d m] [|e n]; simpl; try discriminate;
    [reflexivity|].
  rewrite !andb_true_iff. intros [H1 H2] [H3 H4].
  split; [exact (cell_eqb_trans _ _ _ H1 H3) | exact (IH _ _ H2 H4)].
Qed.

Lemma row_eqb_sym r s : row_eqb r s = true -> row_eqb s r = true.
Proof.
  unfold row_eqb. rewrite !andb_true_iff.
  intros H. decompose [and] H.
  repeat split; (apply cell_eqb_sym || apply cells_eqb_sym); assumption.
Qed.

Lemma row_eqb_trans r s u :
  row_eqb r s = true -> row_eqb s u = true -> row_eqb r u = true.
Proof.
  unfold row_eqb. rewrite !andb_true_iff.
  intros H H'. decompose [and] H. decompose [and] H'.
  repeat split;
    (eapply cell_eqb_trans || eapply cells_eqb_trans); eassumption.
Qed.

(** Every row of the frame has an equal row among the survivors. *)
Lemma unique_complete t r :
  In r t -> exists s, In s (unique t) /\ row_eqb s r = true.
Proof.
  induction t as [|r0 t IH]; simpl; [tauto|].
  intros [->|Hin].
  - exists r. split; [now left | apply row_eqb_refl].
  - destruct (IH Hin) as (s & Hs & Heq).
    destruct (row_eqb r0 s) eqn:E.
    + exists r0. split; [now left|]. exact (row_eqb_trans _ _ _ E Heq).
    + exists s. split; [|exact Heq]. right. apply filter_In.
      split; [exact Hs | now rewrite E].
Qed.

(** ** Row by row *)

Ltac fields :=
  cbn [id first_name last_name email birth_year country gender income extra]
    in *.

Lemma has_null_false r : has_null r = false <-> no_nulls r.
Proof.
  unfold has_null, no_nulls. simpl.
  destruct (id r), (first_name r), (last_name r), (email r), (birth_year r),
    (country r), (gender r), (income r); simpl;
    (split; [intros H; try discriminate; repeat split; discriminate
            | intros H; try reflexivity; decompose [and] H; congruence]).
Qed.

Lemma str_map_inv f c c' :
  str_map f c = Ok c' ->
  (c = None /\ c' = None) \/
  (exists s, c = Some (VStr s) /\ c' = Some (VStr (f s))).
Proof.
  destruct c as [[]|]; simpl; try discriminate; intros H; injection H as <-.
  - right. now eexists.
  - now left.
Qed.

Lemma cast_cell_inv to c c' :
  cast_cell to c = Ok c' ->
  (c = None /\ c' = None) \/
  (exists v v', c = Some v /\ to v = Some v' /\ c' = Some v').
Proof.
  destruct c as [v|]; simpl.
  - destruct (to v) as [v'|] eqn:E; [|discriminate].
    intros H; injection H as <-. right. now exists v, v'.
  - intros H; injection H as <-. now left.
Qed.

Lemma clean_names_row_inv r r' :
  clean_names_row r = Ok r' ->
  exists fn ln,
    str_map normalize_name (first_name r) = Ok fn /\
    str_map normalize_name (last_name r) = Ok ln /\
    r' = mkRow (id r) fn ln (email r) (birth_year r) (country r) (gender r)
               (income r) (extra r).
Proof.
  unfold clean_names_row.
  destruct (str_map normalize_name (first_name r)) as [fn|]; [|discriminate].
  destruct (str_map normalize_name (last_name r)) as [ln|]; [|discriminate].
  simpl. intros H; injection H as <-. now exists fn, ln.
Qed.

Lemma standardize_row_inv r r' :
  standardize_row r = Ok r' ->
  exists c g,
    str_map normalize_country (country r) = Ok c /\
    str_map normalize_gender (gender r) = Ok g /\
    r' = mkRow (id r) (first_name r) (last_name r) (email r) (birth_year r)
               c g (income r) (extra r).
Proof.
  unfold standardize_row.
  destruct (str_map normalize_country (country r)) as [c|]; [|discriminate].
  destruct (str_map normalize_gender (gender r)) as [g|]; [|discriminate].
  simpl. intros H; injection H as <-. now exists c, g.
Qed.


Lemma birth_year_ok_true lo hi r :
  birth_year_ok lo hi r = true ->
  exists y, birth_year r = Some (VInt32 y) /\ lo <= y <= hi.
Proof.
  unfold birth_year_ok. destruct (birth_year r) as [[]|]; try discriminate.
  rewrite andb_true_iff, !Z.leb_le. intros H. now exists z.
Qed.

Lemma income_ok_true b r : income_ok b r = true -> within b (income r).
Proof.
  unfold income_ok, within, F64.tot_ge.
  destruct (income r) as [[]|]; try discriminate.
  rewrite andb_true_iff. intros H. now exists x.
Qed.


Lemma clean_names_row_no_nulls r r' :
  clean_names_row r = Ok r' -> no_nulls r -> no_nulls r'.
Proof.
  intros H (N1 & N2 & N3 & N4 & N5 & N6 & N7 & N8).
  apply clean_names_row_inv in H. destruct H as (fn & ln & Hfn & Hln & ->).
  unfold no_nulls; simpl. repeat split; try assumption.
  - destruct (str_map_inv _ _ _ Hfn) as [[? _]|(? & _ & ->)];
      [contradiction | discriminate].
  - destruct (str_map_inv _ _ _ Hln) as [[? _]|(? & _ & ->)];
      [contradiction | discriminate].
Qed.

Lemma cast_cell_no_null to c c' :
  cast_cell to c = Ok c' -> c <> None -> c' <> None.
Proof.
  intros H N. destruct (cast_cell_inv _ _ _ H) as [[? _]|(? & ? & _ & _ & ->)];
    [contradiction | discriminate].
Qed.

Section Casts.

Variable parse_int : string -> option Z.
Variable parse_float : string -> option F64.t.

Lemma cast_birth_year_inv r r' :
  cast_birth_year parse_int r = Ok r' ->
  exists b,
    cast_cell (fun v => option_map VInt32 (cast_int32 parse_int v))
              (birth_year r) = Ok b /\
    r' = mkRow (id r) (first_name r) (last_name r) (email r) b (country r)
               (gender r) (income r) (extra r).
Proof.
  unfold cast_birth_year.
  destruct (cast_cell _ (birth_year r)) as [b|]; [|discriminate].
  simpl. intros H; injection H as <-. now exists b.
Qed.

Lemma cast_income_inv r r' :
  cast_income parse_float r = Ok r' ->
  exists i,
    cast_cell (fun v => option_map VFloat64 (cast_float64 parse_float v))
              (income r) = Ok i /\
    r' = mkRow (id r) (first_name r) (last_name r) (email r) (birth_year r)
               (country r) (gender r) i (extra r).
Proof.
  unfold cast_income.
  destruct (cast_cell _ (income r)) as [i|]; [|discriminate].
  simpl. intros H; injection H as <-. now exists i.
Qed.

Lemma cast_birth_year_no_nulls r r' :
  cast_birth_year parse_int r = Ok r' -> no_nulls r -> no_nulls r'.
Proof.
  intros H (N1 & N2 & N3 & N4 & N5 & N6 & N7 & N8).
  apply cast_birth_year_inv in H. destruct H as (b & Hb & ->).
  unfold no_nulls; simpl. repeat split; try assumption.
  exact (cast_cell_no_null _ _ _ Hb N5).
Qed.

(** The casts only ever raise [CastError]. *)
Lemma cast_birth_year_raises r e :
  cast_birth_year parse_int r = Raise e -> e = CastError.
Proof.
  unfold cast_birth_year, cast_cell.
  destruct (birth_year r) as [v|]; simpl; [|discriminate].
  destruct (option_map VInt32 _); simpl; [discriminate | congruence].
Qed.

Lemma cast_income_raises r e :
  cast_income parse_float r = Raise e -> e = CastError.
Proof.
  unfold cast_income, cast_cell.
  destruct (income r) as [v|]; simpl; [|discriminate].
  destruct (option_map VFloat64 _); simpl; [discriminate | congruence].
Qed.

End Casts.

(* ================================================================== *)
(** ** The methods against the frames *)

(** Runs the methods symbolically on a state given by its four fields;
    what stays are the polars expressions whose outcome is open. *)
Ltac unfold_methods :=
  cbv beta iota zeta delta
    [run_cleaning_pipeline initial_summary drop_nulls remove_duplicates
     clean_names clean_email clean_birth_year clean_income
     standardize_country_gender save write_csv bind lift get_df set_df
     logger_info df log files writable].

Section Pipeline.

Variable parse_int : string -> option Z.
Variable parse_float : string -> option F64.t.

Local Abbreviation run := (run_cleaning_pipeline parse_int parse_float).
Local Abbreviation cleaned := (cleaned_df parse_int parse_float).
Local Abbreviation path := default_output_path.

(** The banners of a complete run, in the order they are logged. *)
Local Abbreviation all_banners :=
  [MsgPipelineStart; MsgInitialSummary; MsgDropNulls; MsgRemoveDuplicates;
   MsgCleanNames; MsgCleanEmail; MsgCleanBirthYear; MsgCleanIncome;
   MsgCountryGender; MsgSave path; MsgPipelineDone].

Ltac unfold_frames H :=
  unfold cleaned_df, before_income, before_birth_year, clean_names_df,
    clean_email_df, clean_birth_year_df, clean_income_df, standardize_df,
    drop_nulls_df in H.

Ltac next_stage H :=
  match type of H with
  | context [rbind ?x _] =>
      lazymatch x with
      | context [rbind _ _] => fail
      | _ => destruct x eqn:?; cbn [rbind] in H; cbv beta iota
      end
  end.

Lemma run_ok st t :
  cleaned (df st) = Ok t -> writable st path = true ->
  exists l,
    run st = (Ok tt, mkState t (log st ++ l) (written path t (files st))
                             (writable st)) /\
    banners l = all_banners.
Proof.
  destruct st as [d l f w]. cbn [df log files writable].
  intros H Hw. unfold_frames H. unfold_methods.
  repeat (next_stage H; try discriminate).
  injection H as <-. rewrite Hw.
  eexists. split.
  - rewrite <- !app_assoc. reflexivity.
  - reflexivity.
Qed.

Lemma run_raise st e :
  cleaned (df st) = Raise e ->
  exists st', run st = (Raise e, st') /\ files st' = files st.
Proof.
  destruct st as [d l f w]. cbn [df log files writable].
  intros H. unfold_frames H. unfold_methods.
  repeat (next_stage H; try discriminate);
    injection H as <-; eexists; split; reflexivity.
Qed.

Lemma run_write_error st t :
  cleaned (df st) = Ok t -> writable st path = false ->
  exists st', run st = (Raise WriteError, st') /\ files st' = files st.
Proof.
  destruct st as [d l f w]. cbn [df log files writable].
  intros H Hw. unfold_frames H. unfold_methods.
  repeat (next_stage H; try discriminate).
  rewrite Hw. eexists; split; reflexivity.
Qed.

(** A run that returns has written the cleaned frame and holds it. *)
Lemma run_inv st st' :
  run st = (Ok tt, st') ->
  exists t l,
    cleaned (df st) = Ok t /\ df st' = t /\
    log st' = log st ++ l /\ banners l = all_banners /\
    files st' = written path t (files st) /\ writable st path = true.
Proof.
  intros H.
  destruct (cleaned (df st)) as [t|e] eqn:Hc.
  - destruct (writable st path) eqn:Hw.
    + destruct (run_ok st t Hc Hw) as (l & Hrun & Hl).
      rewrite Hrun in H. injection H as <-.
      exists t, l. repeat split; assumption.
    + destruct (run_write_error st t Hc Hw) as (s & Hrun & _). congruence.
  - destruct (run_raise st _ Hc) as (s & Hrun & _). congruence.
Qed.


(** *** Where a row of the cleaned frame comes from *)

Lemma cleaned_lineage t t' r :
  cleaned t = Ok t' -> In r t' ->
  exists r0 r1 r2 r3 bounds,
    In r0 t /\ has_null r0 = false /\
    clean_names_row r0 = Ok r1 /\ email_ok r1 = Ok true /\
    cast_birth_year parse_int r1 = Ok r2 /\
    birth_year_ok 1900 2025 r2 = true /\
    cast_income parse_float r2 = Ok r3 /\
    pipeline_bounds parse_int parse_float t = Ok bounds /\
    income_ok bounds r3 = true /\
    standardize_row r3 = Ok r /\ gender_ok r = true.
Proof.
  intros H Hin. unfold pipeline_bounds, income_frame.
  unfold_frames H.
  unfold before_income, before_birth_year, clean_names_df, clean_email_df,
    clean_birth_year_df, drop_nulls_df.
  destruct (with_columns clean_names_row _) as [t1|] eqn:E1;
    cbn [rbind] in H |- *; [|discriminate].
  destruct (filter_rows email_ok t1) as [t2|] eqn:E2;
    cbn [rbind] in H |- *; [|discriminate].
  destruct (with_columns (cast_birth_year parse_int) t2) as [t3|] eqn:E3;
    cbn [rbind] in H |- *; [|discriminate].
  destruct (with_columns (cast_income parse_float) _) as [t4|] eqn:E4;
    cbn [rbind] in H |- *; [|discriminate].
  destruct (income_bounds t4) as [b|] eqn:E5;
    cbn [rbind] in H |- *; [|discriminate].
  destruct (with_columns standardize_row _) as [t5|] eqn:E6;
    cbn [rbind] in H |- *; [|discriminate].
  injection H as <-.
  apply filter_In in Hin. destruct Hin as [Hin Hg].
  destruct (with_columns_In _ _ _ _ E6 Hin) as (r3 & Hin3 & Hs).
  apply filter_In in Hin3. destruct Hin3 as [Hin3 Hi].
  destruct (with_columns_In _ _ _ _ E4 Hin3) as (r2 & Hin2 & Hc).
  apply filter_In in Hin2. destruct Hin2 as [Hin2 Hb].
  destruct (with_columns_In _ _ _ _ E3 Hin2) as (r1 & Hin1 & Hy).
  rewrite (filter_rows_ok _ _ _ E2) in Hin1.
  apply filter_In in Hin1. destruct Hin1 as [Hin1 He].
  destruct (with_columns_In _ _ _ _ E1 Hin1) as (r0 & Hin0 & Hn).
  apply unique_incl, filter_In in Hin0. destruct Hin0 as [Hin0 Hnull].
  exists r0, r1, r2, r3, b.
  repeat split; try assumption.
  - now apply negb_true_iff in Hnull.
  - unfold holds in He. destruct (email_ok r1) as [[|]|]; congruence.
Qed.

End Pipeline.

(* ================================================================== *)
(** * The claims of the specification *)

Section Claims.

Variable parse_int : string -> option Z.
Variable parse_float : string -> option F64.t.

Local Abbreviation run := (run_cleaning_pipeline parse_int parse_float).
Local Abbreviation cleaned := (cleaned_df parse_int parse_float).
Local Abbreviation bounds_of := (pipeline_bounds parse_int parse_float).
Local Abbreviation path := default_output_path.



(** C4. A run that returns has gone through the methods in the order
    summary, null-dropping, deduplication, names, email, birth year,
    income, country and gender, save.  The frames passed from method to
    method are chained in that order: both casts work on frames without
    nulls in the required columns, the income bounds are those of the
    frame produced by null-dropping, deduplication and the three filters
    before it, and the gender filter is applied after the rows outside
    the bounds are gone. *)
Theorem pipeline_order st st' :
  run st = (Ok tt, st') ->
  (exists l,
     log st' = log st ++ l /\
     banners l =
       [MsgPipelineStart; MsgInitialSummary; MsgDropNulls;
        MsgRemoveDuplicates; MsgCleanNames; MsgCleanEmail;
        MsgCleanBirthYear; MsgCleanIncome; MsgCountryGender;
        MsgSave "cleaned_data.csv"; MsgPipelineDone]) /\
  exists t3 t4 t5 t5' bounds,
    clean_names_df (unique (drop_nulls_df (df st))) = Ok t3 /\
    clean_email_df t3 = Ok t4 /\
    Forall no_nulls t4 /\
    clean_birth_year_df parse_int 1900 2025 t4 = Ok t5 /\
    Forall no_nulls t5 /\
    with_columns (cast_income parse_float) t5 = Ok t5' /\
    income_bounds t5' = Ok bounds /\
    standardize_df (filter (income_ok bounds) t5') = Ok (df st') /\
    files st' "cleaned_data.csv"%string = Some (df st').
Proof.
  intros Hrun.
  destruct (run_inv _ _ _ _ Hrun) as (t & l & Hc & Hdf & Hlog & Hl & Hf & _).
  clear Hrun.
  split; [exists l; split; assumption|].
  unfold cleaned_df, before_income, before_birth_year, clean_income_df in Hc.
  destruct (clean_names_df _) as [t3|] eqn:H3; simpl in Hc; [|discriminate].
  destruct (clean_email_df t3) as [t4|] eqn:H4; simpl in Hc; [|discriminate].
  destruct (clean_birth_year_df _ _ _ t4) as [t5|] eqn:H5; simpl in Hc;
    [|discriminate].
  destruct (with_columns _ t5) as [t5'|] eqn:H5'; simpl in Hc; [|discriminate].
  destruct (income_bounds t5') as [b|] eqn:Hb; simpl in Hc; [|discriminate].
  assert (N3 : Forall no_nulls t3).
  { apply Forall_forall. intros r Hin.
    destruct (with_columns_In _ _ _ _ H3 Hin) as (r0 & Hin0 & Hr).
    apply (clean_names_row_no_nulls _ _ Hr).
    apply unique_incl, filter_In in Hin0.
    apply has_null_false. now apply negb_true_iff. }
  assert (N4 : Forall no_nulls t4).
  { apply Forall_forall. intros r Hin.
    rewrite (filter_rows_ok _ _ _ H4) in Hin. apply filter_In in Hin.
    rewrite Forall_forall in N3. now apply N3. }
  assert (N5 : Forall no_nulls t5).
  { apply Forall_forall. intros r Hin.
    unfold clean_birth_year_df in H5.
    destruct (with_columns _ t4) as [t4'|] eqn:H4'; simpl in H5;
      [|discriminate].
    injection H5 as <-. apply filter_In in Hin. destruct Hin as [Hin _].
    destruct (with_columns_In _ _ _ _ H4' Hin) as (r0 & Hin0 & Hr).
    apply (cast_birth_year_no_nulls _ _ _ Hr).
    rewrite Forall_forall in N4. now apply N4. }
  exists t3, t4, t5, t5', b. rewrite Hdf, Hf.
  repeat split; try assumption; try reflexivity.
Qed.

(** C5. When [clean_birth_year] meets a birth year it cannot cast to
    Int32, or [clean_income] an income it cannot cast to Float64, the run
    raises [CastError] and no file is written. *)
Theorem cast_failure_aborts st :
  (exists t4 r v,
     before_birth_year (df st) = Ok t4 /\ In r t4 /\
     birth_year r = Some v /\ cast_int32 parse_int v = None) \/
  (exists t5 r v,
     before_income parse_int (df st) = Ok t5 /\ In r t5 /\
     income r = Some v /\ cast_float64 parse_float v = None) ->
  exists st', run st = (Raise CastError, st') /\ files st' = files st.
Proof.
  intros H. apply run_raise.
  unfold cleaned_df, before_income.
  destruct H as [(t4 & r & v & H4 & Hin & Hv & Hcast)
                |(t5 & r & v & H5 & Hin & Hv & Hcast)].
  - rewrite H4. simpl. unfold clean_birth_year_df.
    rewrite (with_columns_raise (cast_birth_year parse_int) t4 CastError).
    + reflexivity.
    + apply cast_birth_year_raises.
    + exists r. split; [exact Hin|].
      unfold cast_birth_year. now rewrite Hv; simpl; rewrite Hcast.
  - unfold before_income in H5. rewrite H5. simpl. unfold clean_income_df.
    rewrite (with_columns_raise (cast_income parse_float) t5 CastError).
    + reflexivity.
    + apply cast_income_raises.
    + exists r. split; [exact Hin|].
      unfold cast_income. now rewrite Hv; simpl; rewrite Hcast.
Qed.

(** C6. [drop_nulls] keeps, in their order and unchanged, exactly the
    rows with a value in each of the eight required columns; the frame
    does not grow. *)
Theorem drop_nulls_spec st :
  exists st' keep,
    drop_nulls st = (Ok tt, st') /\
    df st' = filter keep (df st) /\
    (forall r, keep r = false <->
       id r = None \/ first_name r = None \/ last_name r = None \/
       email r = None \/ birth_year r = None \/ country r = None \/
       gender r = None \/ income r = None) /\
    (forall r, In r (df st') <-> In r (df st) /\ no_nulls r) /\
    (height (df st') <= height (df st))%nat.
Proof.
  destruct st as [d l f w].
  eexists. exists (fun r => negb (has_null r)).
  split; [unfold_methods; reflexivity|]. cbn [df].
  split; [reflexivity|].
  split; [|split].
  - intros r. rewrite negb_false_iff. unfold has_null. simpl.
    destruct (id r), (first_name r), (last_name r), (email r),
      (birth_year r), (country r), (gender r), (income r); simpl;
      (split; [intros H; try discriminate; tauto
              | intros H; try reflexivity;
                repeat (destruct H as [H|H]; try discriminate)]).
  - intros r. rewrite filter_In, negb_true_iff, has_null_false. tauto.
  - apply filter_length_le.
Qed.



(** C10. On a frame without rows [clean_income] raises [TypeError] after
    its banner: the quartiles are null, and the method and whatever was to
    follow it stop there. *)
Theorem clean_income_empty st :
  df st = [] ->
  let st_err := mkState [] (log st ++ [MsgCleanIncome]) (files st)
                        (writable st) in
  clean_income parse_float st = (Raise TypeError, st_err) /\
  forall (k : unit -> M unit),
    bind (clean_income parse_float) k st = (Raise TypeError, st_err).
Proof.
  destruct st as [d l f w]. cbn [df log files writable].
  intros ->. split; [reflexivity | intros k; reflexivity].
Qed.

(** The same inside the pipeline: when the earlier methods leave no row,
    the run raises [TypeError] and writes nothing. *)
Lemma run_empty_before_income st :
  before_income parse_int (df st) = Ok [] ->
  exists st', run st = (Raise TypeError, st') /\ files st' = files st.
Proof.
  intros H. apply run_raise. unfold cleaned_df. now rewrite H.
Qed.

(** C7. [remove_duplicates] leaves one row of every class of equal rows:
    afterwards no two rows are equal on all columns, every row of the
    frame before has an equal row after, nothing new appears and the frame
    does not grow.  A frame without equal rows stays so under the row
    filters of the later methods. *)
Theorem remove_duplicates_spec st :
  exists st',
    remove_duplicates st = (Ok tt, st') /\
    distinct_rows (df st') /\
    (height (df st') <= height (df st))%nat /\
    (forall r, In r (df st') -> In r (df st)) /\
    (forall r, In r (df st) ->
               exists s, In s (df st') /\ row_eqb s r = true) /\
    (forall t, distinct_rows t ->
       (forall t', clean_email_df t = Ok t' -> distinct_rows t') /\
       (forall lo hi, distinct_rows (filter (birth_year_ok lo hi) t)) /\
       (forall b, distinct_rows (filter (income_ok b) t)) /\
       distinct_rows (filter gender_ok t)).
Proof.
  destruct st as [d l f w].
  eexists. split; [unfold_methods; reflexivity|]. cbn [df].
  split; [apply unique_distinct|].
  split; [apply unique_length_le|].
  split; [intros r; apply unique_incl|].
  split; [intros r; apply unique_complete|].
  intros t Ht. repeat split; intros.
  - rewrite (filter_rows_ok _ _ _ H). now apply distinct_rows_filter.
  - now apply distinct_rows_filter.
  - now apply distinct_rows_filter.
  - now apply distinct_rows_filter.
Qed.

Lemma nearest_idx_rounds n k :
  let i := nearest_idx n k in
  (n - 1) * k - 2 < 4 * i <= (n - 1) * k + 2.
Proof.
  unfold nearest_idx. cbv zeta.
  pose proof (Z.div_mod ((n - 1) * k + 2) 4 ltac:(lia)).
  pose proof (Z.mod_pos_bound ((n - 1) * k + 2) 4 ltac:(lia)).
  lia.
Qed.

Lemma quantile_inv col k q :
  quantile col k = Some q ->
  nth_error (F64.sort (float_values col))
    (Z.to_nat (nearest_idx (Z.of_nat (List.length (float_values col))) k))
  = Some q /\
  In q (float_values col).
Proof.
  unfold quantile. intros H. split; [exact H|].
  apply nth_error_In in H.
  exact (Permutation_in _ (F64Facts.sort_perm _) H).
Qed.

(** C1. The quartiles [clean_income] uses are order statistics of the
    income column of the frame it holds, cast to Float64: the values at the
    positions nearest to a quarter and to three quarters of the way through
    the sorted column, without interpolation.  The rows kept are those
    inside the bounds derived from these two values in this very call. *)
Theorem clean_income_quartiles st st' :
  clean_income parse_float st = (Ok tt, st') ->
  exists t1 q1 q3 i1 i3,
    with_columns (cast_income parse_float) (df st) = Ok t1 /\
    let vals := float_values (map income t1) in
    let n := Z.of_nat (List.length vals) in
    Sorted F64.le (F64.sort vals) /\
    Permutation (F64.sort vals) vals /\
    (n - 1) - 2 < 4 * i1 <= (n - 1) + 2 /\
    3 * (n - 1) - 2 < 4 * i3 <= 3 * (n - 1) + 2 /\
    nth_error (F64.sort vals) (Z.to_nat i1) = Some q1 /\
    nth_error (F64.sort vals) (Z.to_nat i3) = Some q3 /\
    In q1 vals /\ In q3 vals /\
    let iqr := F64.sub q3 q1 in
    df st' =
      filter (income_ok (F64.sub q1 (F64.mul F64.one_and_half iqr),
                         F64.add q3 (F64.mul F64.one_and_half iqr))) t1.
Proof.
  destruct st as [d l f w]. cbn [df]. unfold_methods.
  destruct (with_columns (cast_income parse_float) d) as [t1|] eqn:Hc;
    cbv beta iota; [|discriminate].
  unfold income_bounds.
  destruct (quantile (map income t1) 1) as [q1|] eqn:H1; [|discriminate].
  destruct (quantile (map income t1) 3) as [q3|] eqn:H3; [|discriminate].
  cbv beta iota zeta. intros H. injection H as <-. cbn [df fst snd].
  apply quantile_inv in H1. destruct H1 as [H1 I1].
  apply quantile_inv in H3. destruct H3 as [H3 I3].
  exists t1, q1, q3.
  exists (nearest_idx (Z.of_nat (List.length (float_values (map income t1)))) 1),
         (nearest_idx (Z.of_nat (List.length (float_values (map income t1)))) 3).
  split; [reflexivity|].
  split; [apply F64Facts.sort_sorted|].
  split; [apply F64Facts.sort_perm|].
  pose proof (nearest_idx_rounds
                (Z.of_nat (List.length (float_values (map income t1)))) 1) as R1.
  pose proof (nearest_idx_rounds
                (Z.of_nat (List.length (float_values (map income t1)))) 3) as R3.
  cbv zeta in R1, R3.
  split; [lia|]. split; [lia|].
  repeat split; assumption.
Qed.

(** *** A second run *)



End Claims.


(** ** The claims on concrete frames *)

(** The order of the run, on the cleaner holding the row of Ann Smith. *)
Lemma pipeline_order_witness :
  fst (Decimal.run (Decimal.fresh [Decimal.ann])) = Ok tt /\
  exists l,
    log (snd (Decimal.run (Decimal.fresh [Decimal.ann]))) = [] ++ l /\
    banners l =
      [MsgPipelineStart; MsgInitialSummary; MsgDropNulls;
       MsgRemoveDuplicates; MsgCleanNames; MsgCleanEmail;
       MsgCleanBirthYear; MsgCleanIncome; MsgCountryGender;
       MsgSave "cleaned_data.csv"; MsgPipelineDone].
Proof.
  split; [reflexivity|].
  apply (pipeline_order Decimal.parse_int Decimal.parse_float
           (Decimal.fresh [Decimal.ann])
           (snd (Decimal.run (Decimal.fresh [Decimal.ann])))).
  vm_compute. reflexivity.
Defined.

(** A birth year that is no number stops the run before anything is
    written. *)
Lemma cast_failure_aborts_witness :
  Decimal.parse_int "abc" = None /\
  exists st',
    Decimal.run (Decimal.fresh Decimal.bad_year) = (Raise CastError, st') /\
    files st' = files (Decimal.fresh Decimal.bad_year).
Proof.
  split; [reflexivity|].
  apply (cast_failure_aborts Decimal.parse_int Decimal.parse_float
           (Decimal.fresh Decimal.bad_year)).
  left. exists Decimal.bad_year.
  eexists. exists (VStr "abc").
  split; [reflexivity|].
  split; [left; reflexivity|].
  split; reflexivity.
Defined.



(** [clean_income] on a cleaner without rows. *)
Lemma clean_income_empty_witness :
  df (Decimal.fresh []) = [] /\
  clean_income Decimal.parse_float (Decimal.fresh [])
  = (Raise TypeError,
     mkState [] [MsgCleanIncome] (files (Decimal.fresh []))
             (writable (Decimal.fresh []))).
Proof.
  split; [reflexivity|].
  apply (clean_income_empty Decimal.parse_float (Decimal.fresh [])).
  reflexivity.
Defined.

(** The quartiles of the seven incomes of the specification's scenario. *)
Lemma clean_income_quartiles_witness :
  fst (clean_income Decimal.parse_float
         (Decimal.fresh Decimal.seven_incomes)) = Ok tt /\
  exists t1 q1 q3 i1 i3,
    with_columns (cast_income Decimal.parse_float) Decimal.seven_incomes
    = Ok t1 /\
    let vals := float_values (map income t1) in
    let n := Z.of_nat (List.length vals) in
    Sorted F64.le (F64.sort vals) /\
    Permutation (F64.sort vals) vals /\
    (n - 1) - 2 < 4 * i1 <= (n - 1) + 2 /\
    3 * (n - 1) - 2 < 4 * i3 <= 3 * (n - 1) + 2 /\
    nth_error (F64.sort vals) (Z.to_nat i1) = Some q1 /\
    nth_error (F64.sort vals) (Z.to_nat i3) = Some q3 /\
    In q1 vals /\ In q3 vals /\
    let iqr := F64.sub q3 q1 in
    df (snd (clean_income Decimal.parse_float
               (Decimal.fresh Decimal.seven_incomes))) =
      filter (income_ok (F64.sub q1 (F64.mul F64.one_and_half iqr),
                         F64.add q3 (F64.mul F64.one_and_half iqr))) t1.
Proof.
  split; [reflexivity|].
  apply (clean_income_quartiles Decimal.parse_float
           (Decimal.fresh Decimal.seven_incomes)
           (snd (clean_income Decimal.parse_float
                   (Decimal.fresh Decimal.seven_incomes)))).
  vm_compute. reflexivity.
Defined.


(** Filtering a frame without equal rows. *)
Lemma remove_duplicates_spec_witness :
  distinct_rows Decimal.two_anns /\
  distinct_rows (filter gender_ok Decimal.two_anns).
Proof.
  assert (H : distinct_rows Decimal.two_anns).
  { repeat constructor. }
  split; [exact H|].
  destruct (remove_duplicates_spec (Decimal.fresh Decimal.two_anns))
    as (st' & _ & _ & _ & _ & _ & Hfilters).
  apply (Hfilters Decimal.two_anns H).
Defined.

(** *** The scenarios of the specification *)

(** Ann Smith comes out trimmed, lower-cased and with her country in upper
    case; the frame is written to [cleaned_data.csv]. *)
Example ann_is_cleaned :
  exists st',
    Decimal.run (Decimal.fresh [Decimal.ann]) = (Ok tt, st') /\
    df st' =
      [mkRow (Some (VInt64 1)) (Some (VStr "ann")) (Some (VStr "smith"))
             (Some (VStr "a@b.com")) (Some (VInt32 1990)) (Some (VStr "US"))
             (Some (VStr "female")) (Some (VFloat64 (F64.of_Z 50000))) []] /\
    files st' "cleaned_data.csv"%string = Some (df st').
Proof.
  eexists. split; [vm_compute; reflexivity|].
  split; vm_compute; reflexivity.
Qed.

(** Of the seven incomes the outlier goes and the other six stay. *)
Example outlier_is_removed :
  exists st',
    Decimal.run (Decimal.fresh Decimal.seven_incomes) = (Ok tt, st') /\
    map id (df st') = map (fun i => Some (VInt64 i)) [1; 2; 3; 4; 5; 6].
Proof.
  eexists. split; vm_compute; reflexivity.
Qed.

(** An income that is no number stops the run as well. *)
Example bad_income_aborts :
  exists st',
    Decimal.run (Decimal.fresh Decimal.bad_income) = (Raise CastError, st') /\
    files st' "cleaned_data.csv"%string = None.
Proof.
  eexists. split; vm_compute; reflexivity.
Qed.

(** A run whose last filter leaves no row writes an empty frame; a run that
    starts from an empty frame raises in [clean_income]. *)
Example empty_output_then_error :
  (exists st',
     Decimal.run (Decimal.fresh Decimal.unknown_gender) = (Ok tt, st') /\
     files st' "cleaned_data.csv"%string = Some []) /\
  exists st',
    Decimal.run (Decimal.fresh []) = (Raise TypeError, st') /\
    files st' "cleaned_data.csv"%string = None.
Proof.
  split; eexists; split; vm_compute; reflexivity.
Qed.

(** *** Where the specification and the code part *)

(** C1, as stated, fails: on the seven incomes 10, 12, 13, 14, 15, 16 and
    1000000 [clean_income] takes 13 and 16 for the quartiles, where linear
    interpolation gives 12.5 and 15.5; the bounds are 8.5 and 20.5 instead
    of 8 and 20. *)
Lemma quartiles_not_interpolated :
  exists t,
    income_frame Decimal.parse_int Decimal.parse_float Decimal.seven_incomes
    = Ok t /\
    quantile (map income t) 1 = Some (F64.of_Z 13) /\
    quantile_linear (map income t) 1 = Some (F64.halves 25) /\
    quantile (map income t) 3 = Some (F64.of_Z 16) /\
    quantile_linear (map income t) 3 = Some (F64.halves 31) /\
    income_bounds t = Ok (F64.halves 17, F64.halves 41) /\
    income_bounds_linear t = Ok (F64.of_Z 8, F64.of_Z 20) /\
    income_bounds t <> income_bounds_linear t.
Proof.
  eexists. split; [reflexivity|].
  repeat (split; [vm_compute; reflexivity|]).
  vm_compute. discriminate.
Defined.


(** C7, as stated, fails: two rows that differ only in the spelling of the
    first name pass [remove_duplicates] and are equal once the names are
    cleaned; the frame written has the same row twice. *)
Lemma duplicates_after_clean_names :
  distinct_rows Decimal.two_anns /\
  exists st' r,
    Decimal.run (Decimal.fresh Decimal.two_anns) = (Ok tt, st') /\
    df st' = [r; r] /\
    ~ distinct_rows (df st').
Proof.
  split; [repeat constructor|].
  exists (snd (Decimal.run (Decimal.fresh Decimal.two_anns))).
  eexists.
  split; [vm_compute; reflexivity|].
  split; [vm_compute; reflexivity|].
  intros H. vm_compute in H.
  inversion H as [|? ? Hall _]; subst.
  inversion Hall as [|? ? Hneq _]; subst.
  discriminate Hneq.
Defined.

(* ================================================================== *)
(** * Further properties of the methods *)

(** ** The shape of cleaned text *)

Module TextShape.
Import Text.









End TextShape.

(** ** The email pattern in closed form *)

Module EmailShape.
Import Regex.







End EmailShape.


(** ** Each method as an equation on the state *)

Lemma str_map_outcome f c :
  if text_or_null c then exists c', str_map f c = Ok c'
  else str_map f c = Raise DtypeError.
Proof. destruct c as [[]|]; simpl; try reflexivity; now eexists. Qed.

Lemma with_columns_outcome f ok e t :
  (forall r, if ok r : bool then exists r', f r = Ok r' else f r = Raise e) ->
  if forallb ok t then exists t', with_columns f t = Ok t'
  else with_columns f t = Raise e.
Proof.
  intros Hf. induction t as [|r t IH]; simpl; [now eexists|].
  specialize (Hf r). destruct (ok r); simpl.
  - destruct Hf as (r' & ->). simpl.
    destruct (forallb ok t).
    + destruct IH as (t' & ->). simpl. now eexists.
    + now rewrite IH.
  - now rewrite Hf.
Qed.








Section Methods.

Variable parse_int : string -> option Z.
Variable parse_float : string -> option F64.t.

Lemma clean_birth_year_eq lo hi st :
  clean_birth_year parse_int lo hi st =
  match with_columns (cast_birth_year parse_int) (df st) with
  | Ok t1 =>
      (Ok tt,
       mkState (filter (birth_year_ok lo hi) t1)
         (log st ++ [MsgCleanBirthYear;
                     MsgBirthYearsRemoved
                       (removed (height t1)
                                (height (filter (birth_year_ok lo hi) t1)))])
         (files st) (writable st))
  | Raise e =>
      (Raise e,
       mkState (df st) (log st ++ [MsgCleanBirthYear]) (files st)
               (writable st))
  end.
Proof.
  destruct st as [d l f w]. unfold_methods.
  destruct (with_columns (cast_birth_year parse_int) d); cbv beta iota;
    [now rewrite <- app_assoc | reflexivity].
Qed.

Lemma clean_income_eq st :
  clean_income parse_float st =
  match with_columns (cast_income parse_float) (df st) with
  | Ok t1 =>
      match income_bounds t1 with
      | Ok bounds =>
          (Ok tt,
           mkState (filter (income_ok bounds) t1)
             (log st ++ [MsgCleanIncome;
                         MsgOutliersRemoved
                           (removed (height t1)
                                    (height (filter (income_ok bounds) t1)))])
             (files st) (writable st))
      | Raise e =>
          (Raise e,
           mkState t1 (log st ++ [MsgCleanIncome]) (files st) (writable st))
      end
  | Raise e =>
      (Raise e,
       mkState (df st) (log st ++ [MsgCleanIncome]) (files st) (writable st))
  end.
Proof.
  destruct st as [d l f w]. unfold_methods.
  destruct (with_columns (cast_income parse_float) d) as [t1|]; cbv beta iota;
    [|reflexivity].
  destruct (income_bounds t1); cbv beta iota;
    [now rewrite <- app_assoc | reflexivity].
Qed.

Lemma null_count_zero col t :
  null_count col t = 0%nat <-> Forall (fun r => is_null (col r) = false) t.
Proof.
  unfold null_count. induction t as [|r t IH]; simpl.
  - split; [constructor | reflexivity].
  - destruct (is_null (col r)) eqn:E; simpl.
    + split; [discriminate | intros H; inversion H; congruence].
    + rewrite IH. split; [now constructor | intros H; now inversion H].
Qed.

Lemma filter_id_iff {A} (p : A -> bool) l :
  filter p l = l <-> Forall (fun x => p x = true) l.
Proof.
  split.
  - induction l as [|x l IH]; simpl; [constructor|].
    destruct (p x) eqn:E.
    + intros H. injection H as H. constructor; [exact E | now apply IH].
    + intros H. pose proof (filter_length_le p l) as Hl.
      rewrite H in Hl. simpl in Hl. lia.
  - intros H. apply filter_all. now apply Forall_forall.
Qed.

(** X1. [initial_summary] only reports: it returns with the frame and the
    files as they were and four more messages in the log.  The null counts
    it reports are all zero exactly when [drop_nulls] has nothing to
    remove. *)
Theorem initial_summary_spec st :
  initial_summary st =
  (Ok tt,
   mkState (df st)
     (log st ++ [MsgInitialSummary; MsgRowCount (height (df st)); MsgColumns;
                 MsgNullCounts (null_counts (df st))])
     (files st) (writable st)) /\
  (Forall (fun n => n = 0%nat) (null_counts (df st)) <->
   drop_nulls_df (df st) = df st).
Proof.
  split.
  - destruct st as [d l f w]. unfold_methods. unfold null_counts.
    now rewrite <- !app_assoc.
  - assert (D : drop_nulls_df (df st) = df st <->
                Forall (fun r => negb (has_null r) = true) (df st))
      by apply filter_id_iff.
    rewrite D. unfold null_counts. simpl.
    assert (E : forall a b c d e f g h : nat,
               Forall (fun n => n = 0%nat) [a; b; c; d; e; f; g; h] <->
               a = 0%nat /\ b = 0%nat /\ c = 0%nat /\ d = 0%nat /\
               e = 0%nat /\ f = 0%nat /\ g = 0%nat /\ h = 0%nat).
    { intros. split.
      - intros H.
        repeat match goal with
               | H : Forall _ (_ :: _) |- _ => inversion_clear H
               end.
        tauto.
      - intros H. decompose [and] H. repeat constructor; assumption. }
    rewrite E, !null_count_zero, !Forall_forall.
    split.
    + intros H r Hin. apply negb_true_iff, has_null_false.
      unfold no_nulls. decompose [and] H.
      repeat split;
        match goal with
        | H : forall x, In x _ -> is_null (?col x) = false |- ?col r <> None =>
            specialize (H r Hin); destruct (col r); [discriminate | discriminate H]
        end.
    + intros H.
      assert (N : forall r, In r (df st) -> no_nulls r).
      { intros r Hin. apply has_null_false, negb_true_iff. now apply H. }
      repeat split; intros r Hin; destruct (N r Hin) as (? & ? & ? & ? & ? & ? & ? & ?);
        match goal with
        | |- is_null ?c = false => destruct c; [reflexivity | contradiction]
        end.
Qed.








Lemma cast_int32_range v z :
  cast_int32 parse_int v = Some z -> in_int32 z = true.
Proof.
  assert (C : forall o, checked_int32 o = Some z -> in_int32 z = true).
  { intros [y|]; simpl; [|discriminate].
    destruct (in_int32 y) eqn:E; [|discriminate].
    intros H. injection H as <-. exact E. }
  destruct v as [z0|z0|x|s0|b]; unfold cast_int32;
    [apply C | apply C | apply C | apply C |].
  destruct b; intros H; injection H as <-; reflexivity.
Qed.

Lemma cast_birth_year_outcome r :
  if castable (cast_int32 parse_int) (birth_year r)
  then exists r', cast_birth_year parse_int r = Ok r'
  else cast_birth_year parse_int r = Raise CastError.
Proof.
  unfold cast_birth_year, castable, cast_cell.
  destruct (birth_year r) as [v|]; simpl; [|now eexists].
  destruct (cast_int32 parse_int v); simpl; [now eexists | reflexivity].
Qed.

(** What a row of the frame looks like after [clean_birth_year]. *)
Lemma clean_birth_year_row lo hi t t1 r' :
  with_columns (cast_birth_year parse_int) t = Ok t1 ->
  In r' (filter (birth_year_ok lo hi) t1) ->
  exists r v y,
    In r t /\ birth_year r = Some v /\ cast_int32 parse_int v = Some y /\
    lo <= y <= hi /\
    r' = mkRow (id r) (first_name r) (last_name r) (email r)
               (Some (VInt32 y)) (country r) (gender r) (income r) (extra r).
Proof.
  intros Hw Hin. apply filter_In in Hin. destruct Hin as [Hin Hok].
  destruct (with_columns_In _ _ _ _ Hw Hin) as (r & Hr & Hc).
  apply cast_birth_year_inv in Hc. destruct Hc as (b & Hb & ->).
  apply birth_year_ok_true in Hok. fields.
  destruct Hok as (y & -> & Hy).
  destruct (cast_cell_inv _ _ _ Hb) as [[_ Hn]|(v & v' & Hv & Hcast & Hv')];
    [discriminate|].
  destruct (cast_int32 parse_int v) as [z|] eqn:Hz; [|discriminate].
  simpl in Hcast. injection Hcast as <-. injection Hv' as Hyz. subst z.
  now exists r, v, y.
Qed.

(** X7. [clean_birth_year] returns exactly when every birth year is null
    or can be cast to Int32; the files stay as they were, the frame does
    not grow, and a second call with the same bounds removes nothing more.
    With a birth year that cannot be cast it raises [CastError] and the
    frame stays as it was. *)
Theorem clean_birth_year_outcome lo hi st :
  if forallb (fun r => castable (cast_int32 parse_int) (birth_year r)) (df st)
  then exists st',
         clean_birth_year parse_int lo hi st = (Ok tt, st') /\
         files st' = files st /\
         (height (df st') <= height (df st))%nat /\
         exists st'',
           clean_birth_year parse_int lo hi st' = (Ok tt, st'') /\
           df st'' = df st'
  else clean_birth_year parse_int lo hi st =
       (Raise CastError,
        mkState (df st) (log st ++ [MsgCleanBirthYear]) (files st)
                (writable st)).
Proof.
  rewrite clean_birth_year_eq.
  pose proof (with_columns_outcome (cast_birth_year parse_int) _ CastError
                (df st) cast_birth_year_outcome) as H.
  destruct (forallb _ (df st)); [|now rewrite H].
  destruct H as (t1 & H). rewrite H. eexists.
  split; [reflexivity|]. cbn [df files].
  split; [reflexivity|].
  split.
  { unfold height. rewrite <- (with_columns_length _ _ _ H).
    apply filter_length_le. }
  rewrite clean_birth_year_eq. cbn [df].
  assert (Hfix : forall r', In r' (filter (birth_year_ok lo hi) t1) ->
                 cast_birth_year parse_int r' = Ok r' /\
                 birth_year_ok lo hi r' = true).
  { intros r' Hin. split; [|now apply filter_In in Hin].
    destruct (clean_birth_year_row _ _ _ _ _ H Hin)
      as (r & v & y & _ & _ & Hc & _ & ->).
    unfold cast_birth_year; simpl.
    now rewrite (cast_int32_range _ _ Hc). }
  rewrite with_columns_id by (intros r' Hin; apply (Hfix r' Hin)).
  rewrite filter_all by (intros r' Hin; apply (Hfix r' Hin)).
  eexists. split; reflexivity.
Qed.

(** X8. After [clean_birth_year] every row stems from a row of the frame
    before whose birth year was not null: the birth year is that value
    cast to Int32, it lies within the bounds given, and the other cells
    are as they were.  With bounds that exclude each other no row is
    left. *)
Theorem clean_birth_year_rows lo hi st st' :
  clean_birth_year parse_int lo hi st = (Ok tt, st') ->
  Forall (fun r' =>
            exists r v y,
              In r (df st) /\
              birth_year r = Some v /\ cast_int32 parse_int v = Some y /\
              birth_year r' = Some (VInt32 y) /\
              lo <= y <= hi /\ - 2 ^ 31 <= y <= 2 ^ 31 - 1 /\
              id r' = id r /\ first_name r' = first_name r /\
              last_name r' = last_name r /\ email r' = email r /\
              country r' = country r /\ gender r' = gender r /\
              income r' = income r /\ extra r' = extra r)
         (df st') /\
  (hi < lo -> df st' = []).
Proof.
  rewrite clean_birth_year_eq.
  destruct (with_columns (cast_birth_year parse_int) (df st)) as [t1|] eqn:Hw;
    [|discriminate].
  intros H. injection H as <-. cbn [df].
  assert (Hrows : forall r', In r' (filter (birth_year_ok lo hi) t1) ->
            exists r v y,
              In r (df st) /\
              birth_year r = Some v /\ cast_int32 parse_int v = Some y /\
              birth_year r' = Some (VInt32 y) /\
              lo <= y <= hi /\ - 2 ^ 31 <= y <= 2 ^ 31 - 1 /\
              id r' = id r /\ first_name r' = first_name r /\
              last_name r' = last_name r /\ email r' = email r /\
              country r' = country r /\ gender r' = gender r /\
              income r' = income r /\ extra r' = extra r).
  { intros r' Hin.
    destruct (clean_birth_year_row _ _ _ _ _ Hw Hin)
      as (r & v & y & Hr & Hv & Hc & Hy & ->).
    exists r, v, y. fields.
    pose proof (cast_int32_range _ _ Hc) as Hrange.
    unfold in_int32 in Hrange.
    apply andb_true_iff in Hrange. rewrite !Z.leb_le in Hrange.
    repeat split; try assumption; try reflexivity; lia. }
  split; [now apply Forall_forall|].
  intros Hempty.
  destruct (filter (birth_year_ok lo hi) t1) as [|r' t'] eqn:E;
    [reflexivity|].
  destruct (Hrows r' (or_introl eq_refl)) as (_ & _ & y & _ & _ & _ & _ & Hy & _).
  lia.
Qed.






Lemma sort_length l : List.length (F64.sort l) = List.length l.
Proof. apply Permutation_length, F64Facts.sort_perm. Qed.

Lemma nearest_idx_in_range n k :
  1 <= n -> k = 1 \/ k = 3 -> 0 <= nearest_idx n k < n.
Proof.
  intros Hn Hk. unfold nearest_idx. split.
  - apply Z.div_pos; lia.
  - apply Z.div_lt_upper_bound; lia.
Qed.

Lemma quantile_outcome col k :
  k = 1 \/ k = 3 ->
  match float_values col with
  | [] => quantile col k = None
  | _ :: _ => exists q, quantile col k = Some q
  end.
Proof.
  intros Hk. unfold quantile.
  destruct (float_values col) as [|x vals] eqn:E;
    [simpl; now destruct (Z.to_nat _)|].
  destruct (nth_error (F64.sort (x :: vals)) _) as [q|] eqn:Hq;
    [now exists q|].
  apply nth_error_None in Hq. rewrite sort_length in Hq.
  pose proof (nearest_idx_in_range
                (Z.of_nat (List.length (x :: vals))) k) as R.
  simpl List.length in *. lia.
Qed.

Lemma income_bounds_outcome t :
  match float_values (map income t) with
  | [] => income_bounds t = Raise TypeError
  | _ :: _ => exists bounds, income_bounds t = Ok bounds
  end.
Proof.
  unfold income_bounds.
  pose proof (quantile_outcome (map income t) 1 (or_introl eq_refl)) as H1.
  pose proof (quantile_outcome (map income t) 3 (or_intror eq_refl)) as H3.
  destruct (float_values (map income t)).
  - now rewrite H1.
  - destruct H1 as (q1 & ->), H3 as (q3 & ->). now eexists.
Qed.

Lemma cast_income_outcome r :
  if castable (cast_float64 parse_float) (income r)
  then exists r', cast_income parse_float r = Ok r'
  else cast_income parse_float r = Raise CastError.
Proof.
  unfold cast_income, castable, cast_cell.
  destruct (income r) as [v|]; simpl; [|now eexists].
  destruct (cast_float64 parse_float v); simpl; [now eexists | reflexivity].
Qed.

(** The income column after the cast has a value exactly where it had one
    before. *)
Lemma cast_income_values t t1 :
  with_columns (cast_income parse_float) t = Ok t1 ->
  float_values (map income t1) = [] <->
  existsb (fun r => negb (is_null (income r))) t = false.
Proof.
  intros H. apply with_columns_Forall2 in H.
  induction H as [|r r1 t t1 Hr _ IH]; simpl; [tauto|].
  apply cast_income_inv in Hr. destruct Hr as (i & Hi & ->). fields.
  destruct (cast_cell_inv _ _ _ Hi) as [[-> ->]|(v & v' & -> & Hv & ->)].
  - simpl. exact IH.
  - destruct (cast_float64 parse_float v) as [x|]; [|discriminate].
    simpl in Hv. injection Hv as <-. simpl.
    split; discriminate.
Qed.

(** X9. [clean_income] has three outcomes.  With an income that cannot be
    cast to Float64 it raises [CastError] and the frame stays as it was.
    With incomes that can all be cast but are all null, or no row, it
    raises [TypeError] and the frame is left cast.  Otherwise it returns:
    the files are as they were, the frame does not grow, and every row
    left has a Float64 income. *)
Theorem clean_income_outcome st :
  if forallb (fun r => castable (cast_float64 parse_float) (income r)) (df st)
  then
    if existsb (fun r => negb (is_null (income r))) (df st)
    then exists st',
           clean_income parse_float st = (Ok tt, st') /\
           files st' = files st /\
           (height (df st') <= height (df st))%nat /\
           Forall (fun r => exists x, income r = Some (VFloat64 x)) (df st')
    else exists t1,
           with_columns (cast_income parse_float) (df st) = Ok t1 /\
           clean_income parse_float st =
           (Raise TypeError,
            mkState t1 (log st ++ [MsgCleanIncome]) (files st) (writable st))
  else clean_income parse_float st =
       (Raise CastError,
        mkState (df st) (log st ++ [MsgCleanIncome]) (files st) (writable st)).
Proof.
  rewrite clean_income_eq.
  pose proof (with_columns_outcome (cast_income parse_float) _ CastError
                (df st) cast_income_outcome) as H.
  destruct (forallb _ (df st)); [|now rewrite H].
  destruct H as (t1 & H). rewrite H.
  pose proof (cast_income_values _ _ H) as Hv.
  pose proof (income_bounds_outcome t1) as Hb.
  destruct (existsb _ (df st)).
  - destruct (float_values (map income t1)) as [|x vals].
    + destruct Hv as [Hv _]. discriminate (Hv eq_refl).
    + destruct Hb as (b & ->). eexists.
      split; [reflexivity|]. cbn [df files]. split; [reflexivity|].
      split.
      * unfold height. rewrite <- (with_columns_length _ _ _ H).
        apply filter_length_le.
      * apply Forall_forall. intros r Hin. apply filter_In in Hin.
        destruct Hin as [_ Hok]. apply income_ok_true in Hok.
        destruct Hok as (y & Hy & _). now exists y.
  - destruct (float_values (map income t1)) as [|x vals].
    + rewrite Hb. now exists t1.
    + destruct Hv as [_ Hv]. discriminate (Hv eq_refl).
Qed.

Lemma sub_self v : finite v = true -> F64.sub v v = S754_zero false.
Proof.
  destruct v as [s|s| |s m e]; try discriminate; intros _.
  - now destruct s.
  - unfold F64.sub, SFsub. cbv zeta. now rewrite Z.sub_diag.
Qed.

Lemma tot_le_refl v : F64.tot_le v v = true.
Proof.
  unfold F64.tot_le, SFleb.
  destruct v as [s|s| |s m e]; simpl; try reflexivity.
  - now destruct s.
  - rewrite Z.compare_refl, Pos.compare_cont_refl. now destruct s.
Qed.

(** A finite value lies within the bounds computed from quartiles that
    are both this value. *)
Lemma within_own_bounds v :
  finite v = true ->
  let iqr := F64.sub v v in
  F64.tot_ge v (F64.sub v (F64.mul F64.one_and_half iqr)) = true /\
  F64.tot_le v (F64.add v (F64.mul F64.one_and_half iqr)) = true.
Proof.
  intros Hv. cbv zeta. rewrite (sub_self _ Hv).
  change (F64.mul F64.one_and_half (S754_zero false)) with (S754_zero false).
  destruct v as [s|s| |s m e]; try discriminate.
  - now destruct s.
  - change (F64.sub (S754_finite s m e) (S754_zero false))
      with (S754_finite s m e).
    change (F64.add (S754_finite s m e) (S754_zero false))
      with (S754_finite s m e).
    unfold F64.tot_ge. now rewrite tot_le_refl.
Qed.

Lemma insert_constant v l :
  Forall (eq v) l -> F64.insert v l = v :: l.
Proof.
  intros H. destruct H as [|x l <- _]; simpl; [reflexivity|].
  now rewrite tot_le_refl.
Qed.

Lemma sort_constant v l : Forall (eq v) l -> F64.sort l = l.
Proof.
  induction 1 as [|x l <- Hl IH]; simpl; [reflexivity|].
  rewrite IH. now apply insert_constant.
Qed.

Lemma nth_error_constant {A} (v : A) l i :
  Forall (eq v) l -> (i < List.length l)%nat -> nth_error l i = Some v.
Proof.
  intros H. revert i. induction H as [|x l <- _ IH]; simpl; intros i Hi;
    [lia|].
  destruct i as [|i]; simpl; [reflexivity|]. apply IH. lia.
Qed.

Lemma quantile_constant col v k :
  k = 1 \/ k = 3 ->
  float_values col <> [] -> Forall (eq v) (float_values col) ->
  quantile col k = Some v.
Proof.
  intros Hk Hne Hall. unfold quantile.
  rewrite (sort_constant _ _ Hall).
  apply nth_error_constant; [exact Hall|].
  destruct (float_values col) as [|x vals]; [contradiction|].
  pose proof (nearest_idx_in_range
                (Z.of_nat (List.length (x :: vals))) k) as R.
  simpl List.length in *. lia.
Qed.

(** X10. On a frame of at least one row whose incomes all cast to one and
    the same finite value, [clean_income] returns and removes no row: the
    quartiles coincide, and the value lies within bounds of width zero. *)
Theorem clean_income_constant st v :
  df st <> [] -> finite v = true ->
  (forall r, In r (df st) ->
             exists u, income r = Some u /\
                       cast_float64 parse_float u = Some v) ->
  exists st',
    clean_income parse_float st = (Ok tt, st') /\
    height (df st') = height (df st) /\
    Forall (fun r' => income r' = Some (VFloat64 v)) (df st') /\
    MsgOutliersRemoved 0 = last (log st') MsgCleanIncome.
Proof.
  intros Hne Hv Hall. rewrite clean_income_eq.
  destruct (with_columns (cast_income parse_float) (df st)) as [t1|e] eqn:Hw.
  2:{ exfalso.
      assert (Hc : forallb (fun r => castable (cast_float64 parse_float)
                                               (income r)) (df st) = true).
      { apply forallb_forall. intros r Hin.
        destruct (Hall r Hin) as (u & Hu & Hcast).
        unfold castable. now rewrite Hu, Hcast. }
      pose proof (with_columns_outcome (cast_income parse_float) _ CastError
                    (df st) cast_income_outcome) as H.
      rewrite Hc in H. destruct H as (t' & H). congruence. }
  assert (Hrows : forall r', In r' t1 -> income r' = Some (VFloat64 v)).
  { intros r' Hin.
    destruct (with_columns_In _ _ _ _ Hw Hin) as (r & Hr & Hc).
    apply cast_income_inv in Hc. destruct Hc as (i & Hi & ->). fields.
    destruct (Hall r Hr) as (u & Hu & Hcast).
    unfold cast_cell in Hi. rewrite Hu, Hcast in Hi. simpl in Hi.
    now injection Hi as <-. }
  assert (Hvals : Forall (eq v) (float_values (map income t1))).
  { clear Hw. induction t1 as [|r' t1 IH]; simpl; [constructor|].
    rewrite (Hrows r' (or_introl eq_refl)).
    constructor; [reflexivity|]. apply IH. intros; apply Hrows. now right. }
  assert (Hnil : float_values (map income t1) <> []).
  { pose proof (with_columns_length _ _ _ Hw) as Hlen.
    destruct t1 as [|r' t1].
    - destruct (df st); [contradiction | discriminate].
    - simpl. rewrite (Hrows r' (or_introl eq_refl)). discriminate. }
  unfold income_bounds.
  rewrite (quantile_constant _ v 1 (or_introl eq_refl) Hnil Hvals).
  rewrite (quantile_constant _ v 3 (or_intror eq_refl) Hnil Hvals).
  cbv zeta.
  assert (Hkeep : forall b, b = (F64.sub v (F64.mul F64.one_and_half (F64.sub v v)),
                                 F64.add v (F64.mul F64.one_and_half (F64.sub v v))) ->
                  filter (income_ok b) t1 = t1).
  { intros b ->. apply filter_all. intros r' Hin. unfold income_ok.
    rewrite (Hrows r' Hin). cbn [fst snd].
    destruct (within_own_bounds v Hv) as [H1 H2]. cbv zeta in H1, H2.
    now rewrite H1, H2. }
  eexists. split; [reflexivity|]. cbn [df log].
  rewrite (Hkeep _ eq_refl).
  split; [exact (with_columns_length _ _ _ Hw)|].
  split; [now apply Forall_forall|].
  match goal with
  | |- context [log st ++ [?a; ?b]] =>
      change (log st ++ [a; b]) with (log st ++ [a] ++ [b])
  end.
  rewrite app_assoc, last_last. unfold removed, height. f_equal.
  rewrite (with_columns_length _ _ _ Hw). lia.
Qed.

(** ** Null-dropping and deduplication together *)








(** ** The whole run *)

Local Abbreviation run := (run_cleaning_pipeline parse_int parse_float).
Local Abbreviation cleaned := (cleaned_df parse_int parse_float).

Lemma cleaned_height t t' :
  cleaned t = Ok t' -> (List.length t' <= List.length t)%nat.
Proof.
  unfold cleaned_df, before_income, before_birth_year, clean_names_df,
    clean_email_df, clean_birth_year_df, clean_income_df, standardize_df,
    drop_nulls_df.
  destruct (with_columns clean_names_row _) as [t1|] eqn:E1;
    cbn [rbind]; [|discriminate].
  destruct (filter_rows email_ok t1) as [t2|] eqn:E2;
    cbn [rbind]; [|discriminate].
  destruct (with_columns (cast_birth_year parse_int) t2) as [t3|] eqn:E3;
    cbn [rbind]; [|discriminate].
  destruct (with_columns (cast_income parse_float) _) as [t4|] eqn:E4;
    cbn [rbind]; [|discriminate].
  destruct (income_bounds t4) as [b|] eqn:E5; cbn [rbind]; [|discriminate].
  destruct (with_columns standardize_row _) as [t5|] eqn:E6;
    cbn [rbind]; [|discriminate].
  intros H. injection H as <-.
  apply with_columns_length in E1, E3, E4, E6.
  rewrite (filter_rows_ok _ _ _ E2) in *.
  pose proof (filter_length_le gender_ok t5).
  pose proof (filter_length_le (income_ok b) t4).
  pose proof (filter_length_le (birth_year_ok 1900 2025) t3).
  pose proof (filter_length_le (fun r => holds (email_ok r)) t1).
  pose proof (unique_length_le (filter (fun r => negb (has_null r)) t)).
  pose proof (filter_length_le (fun r => negb (has_null r)) t).
  lia.
Qed.

(** X15. The rows a run leaves all stem from rows of the frame it started
    from that had no null in the required columns, with the [id], the
    [email] and the further columns untouched; there are never more rows
    after than before. *)
Theorem run_provenance st st' :
  run st = (Ok tt, st') ->
  Forall (fun r' => exists r, In r (df st) /\ no_nulls r /\
                              same_untouched r r')
         (df st') /\
  (height (df st') <= height (df st))%nat.
Proof.
  intros Hrun.
  destruct (run_inv _ _ _ _ Hrun) as (t & l & Hc & Hdf & _). clear Hrun.
  subst t. split; [|exact (cleaned_height _ _ Hc)].
  apply Forall_forall. intros r' Hin.
  destruct (cleaned_lineage _ _ _ _ _ Hc Hin)
    as (r0 & r1 & r2 & r3 & b & Hin0 & Hnull & Hn & _ & Hy & _ & Hi
        & _ & _ & Hs & _).
  exists r0. split; [exact Hin0|]. split; [now apply has_null_false|].
  apply clean_names_row_inv in Hn. destruct Hn as (fn & ln & _ & _ & ->).
  apply cast_birth_year_inv in Hy. destruct Hy as (y & _ & ->).
  apply cast_income_inv in Hi. destruct Hi as (i & _ & ->).
  apply standardize_row_inv in Hs. destruct Hs as (c & g & _ & _ & ->).
  unfold same_untouched. fields. repeat split.
Qed.










(** X18. The numbers of removed rows a returning run logs, one per
    filtering method, are never negative and add up to the number of rows
    it started from less the number of rows it leaves. *)
Theorem run_accounting st st' :
  run st = (Ok tt, st') ->
  exists l,
    log st' = log st ++ l /\
    Forall (fun m => 0 <= removed_by m) l /\
    removed_total l =
      Z.of_nat (height (df st)) - Z.of_nat (height (df st')).
Proof.
  destruct st as [d l f w]. unfold_methods.
  destruct (with_columns clean_names_row _) as [t1|] eqn:E1;
    cbv beta iota; [|discriminate].
  destruct (filter_rows email_ok t1) as [t2|] eqn:E2;
    cbv beta iota; [|discriminate].
  destruct (with_columns (cast_birth_year parse_int) t2) as [t3|] eqn:E3;
    cbv beta iota; [|discriminate].
  destruct (with_columns (cast_income parse_float) _) as [t4|] eqn:E4;
    cbv beta iota; [|discriminate].
  destruct (income_bounds t4) as [b|] eqn:E5; cbv beta iota; [|discriminate].
  destruct (with_columns standardize_row _) as [t5|] eqn:E6;
    cbv beta iota; [|discriminate].
  destruct (w default_output_path); [|discriminate].
  intros H. injection H as <-. cbn [df log].
  rewrite <- !app_assoc. eexists. split; [reflexivity|].
  apply with_columns_length in E1, E3, E4, E6.
  pose proof (filter_rows_ok _ _ _ E2) as F2. subst t2.
  pose proof (filter_length_le gender_ok t5).
  pose proof (filter_length_le (income_ok b) t4).
  pose proof (filter_length_le (birth_year_ok 1900 2025) t3).
  pose proof (filter_length_le (fun r => holds (email_ok r)) t1).
  pose proof (unique_length_le (filter (fun r => negb (has_null r)) d)).
  pose proof (filter_length_le (fun r => negb (has_null r)) d).
  split.
  - cbn [app]. repeat constructor; cbn [removed_by];
      unfold removed, height; lia.
  - cbn [app removed_total removed_by]. unfold removed, height. lia.
Qed.

End Methods.


(** ** The further properties on concrete frames *)


(** Ann Smith, born in 1990, under the bounds 1900 and 2025. *)
Lemma clean_birth_year_rows_witness :
  fst (clean_birth_year Decimal.parse_int 1900 2025
         (Decimal.fresh [Decimal.ann])) = Ok tt /\
  map birth_year
      (df (snd (clean_birth_year Decimal.parse_int 1900 2025
                  (Decimal.fresh [Decimal.ann]))))
  = [Some (VInt32 1990)] /\
  (2025 < 1900 ->
   df (snd (clean_birth_year Decimal.parse_int 1900 2025
              (Decimal.fresh [Decimal.ann]))) = []).
Proof.
  split; [reflexivity|]. split; [reflexivity|].
  apply (clean_birth_year_rows Decimal.parse_int 1900 2025
           (Decimal.fresh [Decimal.ann])
           (snd (clean_birth_year Decimal.parse_int 1900 2025
                   (Decimal.fresh [Decimal.ann])))).
  vm_compute. reflexivity.
Defined.

(** Two rows with the income 10. *)
Lemma clean_income_constant_witness :
  finite (F64.of_Z 10) = true /\
  exists st',
    clean_income Decimal.parse_float
      (Decimal.fresh [Decimal.clean_row 1 10; Decimal.clean_row 2 10])
    = (Ok tt, st') /\
    height (df st') = 2%nat.
Proof.
  split; [reflexivity|].
  destruct (clean_income_constant Decimal.parse_float
              (Decimal.fresh [Decimal.clean_row 1 10; Decimal.clean_row 2 10])
              (F64.of_Z 10))
    as (st' & Hrun & Hh & _).
  - discriminate.
  - reflexivity.
  - intros r [<-|[<-|[]]]; exists (VInt64 10); split; reflexivity.
  - exists st'. split; [exact Hrun | exact Hh].
Defined.


(** The run on the seven incomes: six rows of seven are left. *)
Lemma run_provenance_witness :
  fst (Decimal.run (Decimal.fresh Decimal.seven_incomes)) = Ok tt /\
  (height (df (snd (Decimal.run (Decimal.fresh Decimal.seven_incomes))))
   <= height Decimal.seven_incomes)%nat.
Proof.
  split; [reflexivity|].
  apply (run_provenance Decimal.parse_int Decimal.parse_float
           (Decimal.fresh Decimal.seven_incomes)
           (snd (Decimal.run (Decimal.fresh Decimal.seven_incomes)))).
  vm_compute. reflexivity.
Defined.


(** The run on the seven incomes logs one removed row in all. *)
Lemma run_accounting_witness :
  fst (Decimal.run (Decimal.fresh Decimal.seven_incomes)) = Ok tt /\
  exists l,
    log (snd (Decimal.run (Decimal.fresh Decimal.seven_incomes)))
    = log (Decimal.fresh Decimal.seven_incomes) ++ l /\
    Forall (fun m => 0 <= removed_by m) l /\
    removed_total l =
      Z.of_nat (height (df (Decimal.fresh Decimal.seven_incomes))) -
      Z.of_nat (height (df (snd (Decimal.run
                                   (Decimal.fresh Decimal.seven_incomes))))).
Proof.
  split; [reflexivity|].
  apply (run_accounting Decimal.parse_int Decimal.parse_float
           (Decimal.fresh Decimal.seven_incomes)
           (snd (Decimal.run (Decimal.fresh Decimal.seven_incomes)))).
  vm_compute. reflexivity.
Defined.



